(** * backup.py: a single-shot RDS PostgreSQL backup job

    A shallow embedding of [src/backup.py] and the properties of its
    configuration parsing, artifact naming and orchestration.

    The script reads its configuration from the process environment at
    import time, runs [pg_dump] as a child process, uploads the dump to S3,
    publishes CloudWatch metrics and SNS notifications, and exits.  The
    outside world (clock, child process, AWS clients, file system) is a
    record of oracles; every call the script makes to it is recorded, in
    order, in a trace. *)

From stdpp Require Import gmap strings list fin_maps pretty.
From Stdlib Require Import Ascii String QArith.

Open Scope string_scope.
Open Scope list_scope.

(** ** Python strings *)

Module Py.

(** Truthiness of a [str]: only the empty string is falsy. *)
Definition truthy (s : string) : bool :=
  match s with
  | EmptyString => false
  | String _ _ => true
  end.

(** Truthiness of an [Optional[str]]: [None] and [''] are falsy. *)
Definition truthy_opt (v : option string) : bool :=
  match v with
  | None => false
  | Some s => truthy s
  end.

(** [a or b] on optional strings. *)
Definition or_else (a b : option string) : option string :=
  if truthy_opt a then a else b.

(** [str(v)] as used by an f-string placeholder. *)
Definition str (v : option string) : string :=
  match v with
  | None => "None"
  | Some s => s
  end.

(** [c in s] for a one-character needle. *)
Fixpoint contains (c : ascii) (s : string) : bool :=
  match s with
  | EmptyString => false
  | String a s' => if Ascii.eqb a c then true else contains c s'
  end.

(** [s.split(c, maxsplit)] for a one-character separator. *)
Fixpoint split (c : ascii) (maxsplit : nat) (s : string) : list string :=
  match maxsplit with
  | O => [s]
  | S k =>
      match s with
      | EmptyString => [EmptyString]
      | String a s' =>
          if Ascii.eqb a c then EmptyString :: split c k s'
          else
            match split c maxsplit s' with
            | [] => [String a EmptyString]
            | p :: ps => String a p :: ps
            end
      end
  end.

(** [s.rstrip(c)] for a one-character set. *)
Fixpoint rstrip (c : ascii) (s : string) : string :=
  match s with
  | EmptyString => EmptyString
  | String a s' =>
      match rstrip c s' with
      | EmptyString => if Ascii.eqb a c then EmptyString else String a EmptyString
      | r => String a r
      end
  end.

(** [parts[i]] on a list of strings; the script only indexes lists whose
    length it has established. *)
Definition item (parts : list string) (i : nat) : string :=
  nth i parts EmptyString.

(** [sep.join(l)]. *)
Definition join (sep : string) (l : list string) : string :=
  String.concat sep l.

(** [c * n]: the string made of [n] copies of [c]. *)
Fixpoint repeat (c : ascii) (n : nat) : string :=
  match n with
  | O => EmptyString
  | S k => String c (repeat c k)
  end.

(** [needle in hay] for strings. *)
Definition substring_of (needle hay : string) : Prop :=
  exists pre post, hay = pre +:+ needle +:+ post.

(** [s.endswith(c)]. *)
Fixpoint ends_with (c : ascii) (s : string) : bool :=
  match s with
  | EmptyString => false
  | String a EmptyString => Ascii.eqb a c
  | String _ s' => ends_with c s'
  end.

End Py.

(** ** Configuration read from the environment (module level) *)

Section Config.

(** [os.environ] *)
Variable environ : gmap string string.

Definition RDS_HOST : option string := environ !! "RDS_HOST".
Definition RDS_PORT : string := default "5432" (environ !! "RDS_PORT").
Definition RDS_DB_NAME : option string := environ !! "RDS_DB_NAME".
Definition RDS_USERNAME : option string := environ !! "RDS_USERNAME".
Definition RDS_PASSWORD : option string := environ !! "RDS_PASSWORD".
Definition S3_BUCKET_RAW : string := default "" (environ !! "S3_BUCKET").
Definition SNS_TOPIC_ARN : string := default "" (environ !! "SNS_TOPIC_ARN").
Definition CLOUDWATCH_NAMESPACE : string :=
  default "RDS/Backup" (environ !! "CLOUDWATCH_NAMESPACE").
Definition AWS_REGION : option string :=
  Py.or_else (environ !! "AWS_REGION")
    (Py.or_else (environ !! "AWS_DEFAULT_REGION") (Some "ap-northeast-1")).

End Config.

(** The combined bucket setting is split into the bucket name and the key
    prefix; the pair is [(S3_BUCKET, S3_PREFIX)]. *)
Definition parse_bucket (raw : string) : string * string :=
  if Py.truthy raw then
    if Py.contains "/"%char raw then
      let parts := Py.split "/"%char 1 raw in
      (Py.item parts 0,
       if Py.truthy (Py.item parts 1)
       then Py.rstrip "/"%char (Py.item parts 1) +:+ "/"
       else "")
    else (raw, "")
  else ("", "").

Definition S3_BUCKET (environ : gmap string string) : string :=
  fst (parse_bucket (S3_BUCKET_RAW environ)).
Definition S3_PREFIX (environ : gmap string string) : string :=
  snd (parse_bucket (S3_BUCKET_RAW environ)).

(** ** Time stamps and number formatting *)

(** A reading of [datetime.utcnow()], to the second. *)
Record datetime := DateTime {
  year : nat; month : nat; day : nat;
  hour : nat; minute : nat; second : nat
}.

(** [s.zfill(width)] *)
Definition zfill (width : nat) (s : string) : string :=
  Py.repeat "0"%char (width - String.length s) +:+ s.

(** One [strftime] directive; the script uses [%Y %m %d %H %M %S].  The year
    is written on four digits, as it is for every year from 1000 on. *)
Definition directive (t : datetime) (d : ascii) : string :=
  if Ascii.eqb d "Y" then zfill 4 (pretty (year t))
  else if Ascii.eqb d "m" then zfill 2 (pretty (month t))
  else if Ascii.eqb d "d" then zfill 2 (pretty (day t))
  else if Ascii.eqb d "H" then zfill 2 (pretty (hour t))
  else if Ascii.eqb d "M" then zfill 2 (pretty (minute t))
  else if Ascii.eqb d "S" then zfill 2 (pretty (second t))
  else String "%" (String d EmptyString).

(** [t.strftime(fmt)] *)
Fixpoint strftime (fmt : string) (t : datetime) : string :=
  match fmt with
  | EmptyString => EmptyString
  | String a rest =>
      if Ascii.eqb a "%" then
        match rest with
        | String d rest' => directive t d +:+ strftime rest' t
        | EmptyString => String a EmptyString
        end
      else String a (strftime rest t)
  end.


(** A metric value: the script passes the [int] 1 for counters and a
    [float] for the size.  A float is modelled by the rational it denotes:
    dividing an integer below 2^53 by 2^20 is exact in binary64. *)
Inductive number :=
| Int (n : Z)
| Float (q : Q).

(** [file_size / (1024 * 1024)] *)
Definition file_size_mb (file_size : N) : Q :=
  Qred (Z.of_N file_size # 1048576).

(** [f"{q:.2f}"] for a non-negative [q]: two decimals, ties to even. *)
Definition format_2f (q : Q) : string :=
  let num := (100 * Qnum q)%Z in
  let den := Zpos (Qden q) in
  let n := (num / den)%Z in
  let r := (num mod den)%Z in
  let cents :=
    if ((den <? 2 * r) || ((2 * r =? den) && Z.odd n))%Z then (n + 1)%Z else n in
  pretty (cents / 100)%Z +:+ "." +:+ zfill 2 (pretty (cents mod 100)%Z).

(** ** The outside world *)

(** The exception classes the script distinguishes; every other subclass of
    [Exception] is [OtherException].  Exceptions outside [Exception]
    ([KeyboardInterrupt] and the like) are raised by no call of the model,
    [sys.exit] apart. *)
Inductive exn_class :=
| NoCredentialsError
| ClientError
| TimeoutExpired
| OtherException.

(** An exception with its [str(e)]. *)
Record exn := Exn { exn_cls : exn_class; exn_str : string }.

(** What [subprocess.run] returns with [capture_output=True, text=True]. *)
Record CompletedProcess := {
  returncode : Z;
  stdout : string;
  stderr : string
}.

Record Dimension := { dim_Name : string; dim_Value : option string }.

Record MetricDatum := {
  MetricName : string;
  Value : number;
  Unit : string;
  Dimensions : list Dimension
}.

Inductive level := INFO | WARNING | ERROR.

(** The calls that leave the script, with their arguments. *)
Inductive event :=
| Log (lvl : level) (msg : string)
| PutMetricData (Namespace : string) (MetricData : list MetricDatum)
| Publish (TopicArn Subject Message : string)
| Run (argv : list (option string)) (env : gmap string (option string)) (timeout : Z)
| UploadFile (file_path bucket key : string)
| GetSize (path : string)
| Remove (path : string).

(** The answers of the outside world.  A call that raises yields the
    exception; [utcnow n] is the [n]-th reading of the clock. *)
Record World := {
  os_environ : gmap string string;
  utcnow : nat -> datetime;
  cloudwatch_put_metric_data : string -> list MetricDatum -> option exn;
  sns_publish : string -> string -> string -> option exn;
  subprocess_run :
    list (option string) -> gmap string (option string) -> Z -> exn + CompletedProcess;
  s3_upload_file : string -> string -> string -> option exn;
  os_path_getsize : string -> exn + N;
  os_remove : string -> option exn
}.

(** ** Execution: a trace, a clock counter, and exceptions *)

Record state := { trace : list event; clock_reads : nat }.

Definition init : state := {| trace := []; clock_reads := 0 |}.

(** How a statement ends: normally, by an [Exception], or by the
    [SystemExit] of [sys.exit], which [except Exception] does not catch. *)
Inductive result (A : Type) :=
| Normal (a : A)
| Raise (e : exn)
| SystemExit (code : Z).
Arguments Normal {A} a.
Arguments Raise {A} e.
Arguments SystemExit {A} code.

Definition M (A : Type) : Type := state -> result A * state.

Definition ret {A} (a : A) : M A := fun st => (Normal a, st).

Definition bind {A B} (m : M A) (k : A -> M B) : M B :=
  fun st =>
    match m st with
    | (Normal a, st') => k a st'
    | (Raise e, st') => (Raise e, st')
    | (SystemExit c, st') => (SystemExit c, st')
    end.

#[global] Instance M_ret : MRet M := @ret.
#[global] Instance M_bind : MBind M := fun A B k m => bind m k.

(** [try: body except ...: handler]; [handler e] is [None] when no clause
    matches the class of [e]. *)
Definition try_except {A} (body : M A) (handler : exn -> option (M A)) : M A :=
  fun st =>
    match body st with
    | (Raise e, st') =>
        match handler e with
        | Some h => h st'
        | None => (Raise e, st')
        end
    | other => other
    end.

Definition emit (e : event) : M unit :=
  fun st => (Normal tt, {| trace := trace st ++ [e]; clock_reads := clock_reads st |}).

Definition raise_opt (r : option exn) : M unit :=
  fun st => match r with
            | None => (Normal tt, st)
            | Some e => (Raise e, st)
            end.

Definition raise_sum {A} (r : exn + A) : M A :=
  fun st => match r with
            | inr a => (Normal a, st)
            | inl e => (Raise e, st)
            end.

Definition sys_exit {A} (code : Z) : M A := fun st => (SystemExit code, st).

Definition log (lvl : level) (msg : string) : M unit := emit (Log lvl msg).

(** ** The pure parts of [main] *)

(** The newline of ["\n"]. *)
Definition nl : string := String (ascii_of_nat 10) EmptyString.

(** The dict [required_vars], in insertion order. *)
Definition required_vars (environ : gmap string string) : list (string * option string) :=
  [ ("RDS_HOST", RDS_HOST environ);
    ("RDS_DB_NAME", RDS_DB_NAME environ);
    ("RDS_USERNAME", RDS_USERNAME environ);
    ("RDS_PASSWORD", RDS_PASSWORD environ);
    ("S3_BUCKET", Some (S3_BUCKET environ)) ].

(** The keys of [required_vars]. *)
Definition required_keys : list string :=
  ["RDS_HOST"; "RDS_DB_NAME"; "RDS_USERNAME"; "RDS_PASSWORD"; "S3_BUCKET"].

(** [[k for k, v in required_vars.items() if not v]] *)
Definition missing_vars (environ : gmap string string) : list string :=
  map fst (List.filter (fun kv => negb (Py.truthy_opt (snd kv))) (required_vars environ)).

Definition backup_filename (db_name : option string) (timestamp : string) : string :=
  "backup-" +:+ Py.str db_name +:+ "-" +:+ timestamp +:+ ".dump".

Definition local_file_path (backup_filename : string) : string :=
  "/tmp/" +:+ backup_filename.

Definition s3_key (prefix date_path backup_filename : string) : string :=
  if Py.truthy prefix
  then prefix +:+ date_path +:+ "/" +:+ backup_filename
  else "backups/" +:+ date_path +:+ "/" +:+ backup_filename.

(** The argument list handed to [subprocess.run]. *)
Definition pg_dump_command (environ : gmap string string) (local_file_path : string)
  : list (option string) :=
  [ Some "pg_dump";
    Some "-h"; RDS_HOST environ;
    Some "-p"; Some (RDS_PORT environ);
    Some "-U"; RDS_USERNAME environ;
    Some "-d"; RDS_DB_NAME environ;
    Some "-F"; Some "c";
    Some "-f"; Some local_file_path;
    Some "--no-owner";
    Some "--no-acl";
    Some "--verbose" ].

(** [env = os.environ.copy(); env['PGPASSWORD'] = RDS_PASSWORD] *)
Definition child_env (environ : gmap string string) : gmap string (option string) :=
  <["PGPASSWORD" := RDS_PASSWORD environ]> (Some <$> environ).

Definition success_message (environ : gmap string string)
    (timestamp key : string) (size_mb : Q) : string :=
  "RDS 备份成功完成" +:+ nl +:+ nl +:+
  "数据库: " +:+ Py.str (RDS_DB_NAME environ) +:+ nl +:+
  "主机: " +:+ Py.str (RDS_HOST environ) +:+ nl +:+
  "时间: " +:+ timestamp +:+ nl +:+
  "S3 位置: s3://" +:+ S3_BUCKET environ +:+ "/" +:+ key +:+ nl +:+
  "文件大小: " +:+ format_2f size_mb +:+ " MB" +:+ nl.

(** ** The script *)

Section Script.

Variable w : World.

Let environ := os_environ w.

(** [datetime.utcnow()]: the next reading of the clock. *)
Definition datetime_utcnow : M datetime :=
  fun st =>
    (Normal (utcnow w (clock_reads st)),
     {| trace := trace st; clock_reads := S (clock_reads st) |}).

Definition send_cloudwatch_metric
    (metric_name : string) (value : number) (unit_ status : string) : M unit :=
  try_except
    (let data :=
       [ {| MetricName := metric_name;
            Value := value;
            Unit := unit_;
            Dimensions :=
              [ {| dim_Name := "Database"; dim_Value := RDS_DB_NAME environ |};
                {| dim_Name := "Status"; dim_Value := Some status |} ] |} ] in
     emit (PutMetricData (CLOUDWATCH_NAMESPACE environ) data);;
     raise_opt (cloudwatch_put_metric_data w (CLOUDWATCH_NAMESPACE environ) data))
    (fun e =>
       match exn_cls e with
       | NoCredentialsError =>
           Some (log WARNING "发送 CloudWatch 指标失败: 未找到 AWS 凭证（在 ECS 中应使用 IAM 角色，本地运行需要配置 AWS 凭证）")
       | _ => Some (log WARNING ("发送 CloudWatch 指标失败: " +:+ exn_str e))
       end).

Definition send_sns_notification (subject message : string) : M unit :=
  if negb (Py.truthy (SNS_TOPIC_ARN environ)) then mret tt
  else
    try_except
      (emit (Publish (SNS_TOPIC_ARN environ) subject message);;
       raise_opt (sns_publish w (SNS_TOPIC_ARN environ) subject message);;
       log INFO ("SNS 通知已发送: " +:+ subject))
      (fun e =>
         match exn_cls e with
         | NoCredentialsError =>
             Some (log WARNING "发送 SNS 通知失败: 未找到 AWS 凭证（在 ECS 中应使用 IAM 角色，本地运行需要配置 AWS 凭证）")
         | ClientError => Some (log ERROR ("发送 SNS 通知失败: " +:+ exn_str e))
         | _ => Some (log ERROR ("发送 SNS 通知失败: " +:+ exn_str e))
         end).

Definition upload_to_s3 (file_path bucket key : string) : M bool :=
  try_except
    (emit (UploadFile file_path bucket key);;
     raise_opt (s3_upload_file w file_path bucket key);;
     log INFO ("成功上传到 S3: s3://" +:+ bucket +:+ "/" +:+ key);;
     mret true)
    (fun e =>
       match exn_cls e with
       | NoCredentialsError =>
           Some (log ERROR "上传到 S3 失败: 未找到 AWS 凭证（在 ECS 中应使用 IAM 角色，本地运行需要配置 AWS 凭证）";;
                 mret false)
       | ClientError =>
           Some (log ERROR ("上传到 S3 失败: " +:+ exn_str e);; mret false)
       | _ => Some (log ERROR ("上传到 S3 失败: " +:+ exn_str e);; mret false)
       end).

(** [main()]; the [try] block is [main_body]. *)
Definition main_body : M unit :=
  now1 ← datetime_utcnow;
  let timestamp := strftime "%Y-%m-%d-%H%M%S" now1 in
  let backup_filename := backup_filename (RDS_DB_NAME environ) timestamp in
  let local_file_path := local_file_path backup_filename in
  now2 ← datetime_utcnow;
  let date_path := strftime "%Y/%m/%d" now2 in
  let s3_key := s3_key (S3_PREFIX environ) date_path backup_filename in
  log INFO ("开始备份数据库: " +:+ Py.str (RDS_DB_NAME environ) +:+ " @ "
            +:+ Py.str (RDS_HOST environ));;
  log INFO ("S3 配置: bucket=" +:+ S3_BUCKET environ +:+ ", prefix="
            +:+ (if Py.truthy (S3_PREFIX environ) then S3_PREFIX environ else "(无)")
            +:+ ", key=" +:+ s3_key);;
  let env := child_env environ in
  let pg_dump_command := pg_dump_command environ local_file_path in
  log INFO "执行 pg_dump...";;
  emit (Run pg_dump_command env 3600);;
  result ← raise_sum (subprocess_run w pg_dump_command env 3600);
  (if negb (returncode result =? 0)%Z then
     let error_msg := "pg_dump 失败: " +:+ stderr result in
     log ERROR error_msg;;
     send_cloudwatch_metric "BackupFailure" (Int 1) "Count" "Failed";;
     send_sns_notification
       ("RDS 备份失败 - " +:+ Py.str (RDS_DB_NAME environ))
       ("备份失败于 " +:+ timestamp +:+ nl +:+ nl +:+ "错误: " +:+ error_msg
        +:+ nl +:+ nl +:+ "标准输出: " +:+ stdout result);;
     sys_exit 1
   else mret tt);;
  log INFO "pg_dump 执行成功";;
  log INFO ("上传备份到 S3: s3://" +:+ S3_BUCKET environ +:+ "/" +:+ s3_key);;
  uploaded ← upload_to_s3 local_file_path (S3_BUCKET environ) s3_key;
  (if negb uploaded then
     send_cloudwatch_metric "BackupFailure" (Int 1) "Count" "Failed";;
     send_sns_notification
       ("RDS 备份上传失败 - " +:+ Py.str (RDS_DB_NAME environ))
       ("备份文件生成成功，但 S3 上传失败于 " +:+ timestamp +:+ nl +:+ nl
        +:+ "S3 Key: " +:+ s3_key);;
     sys_exit 1
   else mret tt);;
  emit (GetSize local_file_path);;
  file_size ← raise_sum (os_path_getsize w local_file_path);
  let file_size_mb := file_size_mb file_size in
  send_cloudwatch_metric "BackupSuccess" (Int 1) "Count" "Success";;
  send_cloudwatch_metric "BackupSize" (Float file_size_mb) "Megabytes" "Success";;
  let success_message := success_message environ timestamp s3_key file_size_mb in
  log INFO success_message;;
  send_sns_notification
    ("RDS 备份成功 - " +:+ Py.str (RDS_DB_NAME environ))
    success_message;;
  try_except
    (emit (Remove local_file_path);;
     raise_opt (os_remove w local_file_path);;
     log INFO "已清理本地备份文件")
    (fun e => Some (log WARNING ("清理本地文件失败: " +:+ exn_str e)));;
  log INFO "备份完成".

Definition main : M unit :=
  let missing_vars := missing_vars environ in
  (if negb (bool_decide (missing_vars = [])) then
     log ERROR ("缺少必需的环境变量: " +:+ Py.join ", " missing_vars);;
     send_cloudwatch_metric "BackupFailure" (Int 1) "Count" "Failed";;
     sys_exit 1
   else mret tt);;
  try_except main_body
    (fun e =>
       match exn_cls e with
       | TimeoutExpired =>
           Some (let error_msg := "备份超时（超过 1 小时）" in
                 log ERROR error_msg;;
                 send_cloudwatch_metric "BackupFailure" (Int 1) "Count" "Failed";;
                 now3 ← datetime_utcnow;
                 send_sns_notification
                   ("RDS 备份超时 - " +:+ Py.str (RDS_DB_NAME environ))
                   ("备份超时于 " +:+ strftime "%Y-%m-%d-%H%M%S" now3 +:+ nl +:+ nl
                    +:+ error_msg);;
                 sys_exit 1)
       | _ =>
           Some (let error_msg := exn_str e in
                 log ERROR ("备份失败: " +:+ error_msg);;
                 send_cloudwatch_metric "BackupFailure" (Int 1) "Count" "Failed";;
                 now3 ← datetime_utcnow;
                 send_sns_notification
                   ("RDS 备份失败 - " +:+ Py.str (RDS_DB_NAME environ))
                   ("备份失败于 " +:+ strftime "%Y-%m-%d-%H%M%S" now3 +:+ nl +:+ nl
                    +:+ "错误: " +:+ error_msg);;
                 sys_exit 1)
       end).

(** The process: [main()] from the initial state.  An uncaught exception
    ends the interpreter with status 1. *)
Definition exit_code : Z :=
  match fst (main init) with
  | Normal _ => 0
  | SystemExit code => code
  | Raise _ => 1
  end.

Definition events : list event := trace (snd (main init)).

End Script.

(** ** The events of each step and of each run *)

Section Traces.

Variable w : World.

Let environ := os_environ w.

Definition datum (metric_name : string) (value : number) (unit_ status : string)
  : MetricDatum :=
  {| MetricName := metric_name;
     Value := value;
     Unit := unit_;
     Dimensions :=
       [ {| dim_Name := "Database"; dim_Value := RDS_DB_NAME environ |};
         {| dim_Name := "Status"; dim_Value := Some status |} ] |}.

(** The events of one call of [send_cloudwatch_metric]. *)
Definition metric_events (metric_name : string) (value : number)
    (unit_ status : string) : list event :=
  PutMetricData (CLOUDWATCH_NAMESPACE environ) [datum metric_name value unit_ status]
  :: match cloudwatch_put_metric_data w (CLOUDWATCH_NAMESPACE environ)
             [datum metric_name value unit_ status] with
     | None => []
     | Some e =>
         match exn_cls e with
         | NoCredentialsError =>
             [Log WARNING "发送 CloudWatch 指标失败: 未找到 AWS 凭证（在 ECS 中应使用 IAM 角色，本地运行需要配置 AWS 凭证）"]
         | _ => [Log WARNING ("发送 CloudWatch 指标失败: " +:+ exn_str e)]
         end
     end.

(** The events of one call of [send_sns_notification]. *)
Definition notify_events (subject message : string) : list event :=
  if Py.truthy (SNS_TOPIC_ARN environ) then
    Publish (SNS_TOPIC_ARN environ) subject message
    :: match sns_publish w (SNS_TOPIC_ARN environ) subject message with
       | None => [Log INFO ("SNS 通知已发送: " +:+ subject)]
       | Some e =>
           match exn_cls e with
           | NoCredentialsError =>
               [Log WARNING "发送 SNS 通知失败: 未找到 AWS 凭证（在 ECS 中应使用 IAM 角色，本地运行需要配置 AWS 凭证）"]
           | _ => [Log ERROR ("发送 SNS 通知失败: " +:+ exn_str e)]
           end
       end
  else [].

(** The events of one call of [upload_to_s3]. *)
Definition upload_events (file_path bucket key : string) : list event :=
  UploadFile file_path bucket key
  :: match s3_upload_file w file_path bucket key with
     | None => [Log INFO ("成功上传到 S3: s3://" +:+ bucket +:+ "/" +:+ key)]
     | Some e =>
         match exn_cls e with
         | NoCredentialsError =>
             [Log ERROR "上传到 S3 失败: 未找到 AWS 凭证（在 ECS 中应使用 IAM 角色，本地运行需要配置 AWS 凭证）"]
         | _ => [Log ERROR ("上传到 S3 失败: " +:+ exn_str e)]
         end
     end.

Definition extend (st : state) (evs : list event) : state :=
  {| trace := trace st ++ evs; clock_reads := clock_reads st |}.

(** What the script derives from the first two readings of the clock. *)
Definition run_timestamp : string := strftime "%Y-%m-%d-%H%M%S" (utcnow w 0).
Definition run_date_path : string := strftime "%Y/%m/%d" (utcnow w 1).
Definition run_filename : string :=
  backup_filename (RDS_DB_NAME environ) run_timestamp.
Definition run_local_path : string := local_file_path run_filename.
Definition run_s3_key : string :=
  s3_key (S3_PREFIX environ) run_date_path run_filename.

(** The answers of the world to the calls [main] makes. *)
Definition dump_outcome : exn + CompletedProcess :=
  subprocess_run w (pg_dump_command environ run_local_path) (child_env environ) 3600.
Definition upload_outcome : option exn :=
  s3_upload_file w run_local_path (S3_BUCKET environ) run_s3_key.
Definition size_outcome : exn + N := os_path_getsize w run_local_path.
Definition remove_outcome : option exn := os_remove w run_local_path.

Definition failure_metric_events : list event :=
  metric_events "BackupFailure" (Int 1) "Count" "Failed".

(** Validation failed. *)
Definition config_invalid_events : list event :=
  Log ERROR ("缺少必需的环境变量: " +:+ Py.join ", " (missing_vars environ))
  :: failure_metric_events.

(** From the start of the [try] block to the call of [pg_dump]. *)
Definition start_events : list event :=
  [ Log INFO ("开始备份数据库: " +:+ Py.str (RDS_DB_NAME environ) +:+ " @ "
              +:+ Py.str (RDS_HOST environ));
    Log INFO ("S3 配置: bucket=" +:+ S3_BUCKET environ +:+ ", prefix="
              +:+ (if Py.truthy (S3_PREFIX environ) then S3_PREFIX environ else "(无)")
              +:+ ", key=" +:+ run_s3_key);
    Log INFO "执行 pg_dump...";
    Run (pg_dump_command environ run_local_path) (child_env environ) 3600 ].

(** The two [except] clauses of [main]: what they log, and the subject
    and body of the notification they send. *)
Definition handler_error (e : exn) : string :=
  match exn_cls e with
  | TimeoutExpired => "备份超时（超过 1 小时）"
  | _ => "备份失败: " +:+ exn_str e
  end.

Definition handler_subject (e : exn) : string :=
  match exn_cls e with
  | TimeoutExpired => "RDS 备份超时 - " +:+ Py.str (RDS_DB_NAME environ)
  | _ => "RDS 备份失败 - " +:+ Py.str (RDS_DB_NAME environ)
  end.

Definition handler_message (e : exn) : string :=
  match exn_cls e with
  | TimeoutExpired =>
      "备份超时于 " +:+ strftime "%Y-%m-%d-%H%M%S" (utcnow w 2) +:+ nl +:+ nl
      +:+ "备份超时（超过 1 小时）"
  | _ =>
      "备份失败于 " +:+ strftime "%Y-%m-%d-%H%M%S" (utcnow w 2) +:+ nl +:+ nl
      +:+ "错误: " +:+ exn_str e
  end.

Definition handler_events (e : exn) : list event :=
  Log ERROR (handler_error e)
  :: failure_metric_events
  ++ notify_events (handler_subject e) (handler_message e).

(** [pg_dump] returned a non-zero status. *)
Definition dump_failed_subject : string :=
  "RDS 备份失败 - " +:+ Py.str (RDS_DB_NAME environ).

Definition dump_failed_message (result : CompletedProcess) : string :=
  "备份失败于 " +:+ run_timestamp +:+ nl +:+ nl +:+ "错误: "
  +:+ ("pg_dump 失败: " +:+ stderr result)
  +:+ nl +:+ nl +:+ "标准输出: " +:+ stdout result.

Definition dump_failed_events (result : CompletedProcess) : list event :=
  Log ERROR ("pg_dump 失败: " +:+ stderr result)
  :: failure_metric_events
  ++ notify_events dump_failed_subject (dump_failed_message result).

(** From the return of [pg_dump] to the return of [upload_to_s3]. *)
Definition upload_step_events : list event :=
  [ Log INFO "pg_dump 执行成功";
    Log INFO ("上传备份到 S3: s3://" +:+ S3_BUCKET environ +:+ "/" +:+ run_s3_key) ]
  ++ upload_events run_local_path (S3_BUCKET environ) run_s3_key.

(** [upload_to_s3] returned [False]. *)
Definition upload_failed_subject : string :=
  "RDS 备份上传失败 - " +:+ Py.str (RDS_DB_NAME environ).

Definition upload_failed_message : string :=
  "备份文件生成成功，但 S3 上传失败于 " +:+ run_timestamp +:+ nl +:+ nl
  +:+ "S3 Key: " +:+ run_s3_key.

Definition upload_failed_events : list event :=
  failure_metric_events
  ++ notify_events upload_failed_subject upload_failed_message.

(** The inner [try] around [os.remove]. *)
Definition cleanup_events : list event :=
  Remove run_local_path
  :: match remove_outcome with
     | None => [Log INFO "已清理本地备份文件"]
     | Some e => [Log WARNING ("清理本地文件失败: " +:+ exn_str e)]
     end.

(** After the size of the artifact has been read. *)
Definition success_subject : string :=
  "RDS 备份成功 - " +:+ Py.str (RDS_DB_NAME environ).

Definition success_events (file_size : N) : list event :=
  metric_events "BackupSuccess" (Int 1) "Count" "Success"
  ++ metric_events "BackupSize" (Float (file_size_mb file_size)) "Megabytes" "Success"
  ++ [Log INFO (success_message environ run_timestamp run_s3_key (file_size_mb file_size))]
  ++ notify_events success_subject
       (success_message environ run_timestamp run_s3_key (file_size_mb file_size))
  ++ cleanup_events
  ++ [Log INFO "备份完成"].

(** The call [send_sns_notification] makes, if it makes one. *)
Definition notify_calls (subject message : string) : list event :=
  if Py.truthy (SNS_TOPIC_ARN environ)
  then [Publish (SNS_TOPIC_ARN environ) subject message]
  else [].

(** The call [send_cloudwatch_metric] makes. *)
Definition metric_call (metric_name : string) (value : number)
    (unit_ status : string) : event :=
  PutMetricData (CLOUDWATCH_NAMESPACE environ) [datum metric_name value unit_ status].

Definition failure_call : event := metric_call "BackupFailure" (Int 1) "Count" "Failed".

End Traces.

(** ** Observations on a trace *)

Definition is_log (e : event) : bool :=
  match e with Log _ _ => true | _ => false end.

Definition is_error_log (e : event) : bool :=
  match e with Log ERROR _ => true | _ => false end.

Definition is_put_metric (e : event) : bool :=
  match e with PutMetricData _ _ => true | _ => false end.

(** A [put_metric_data] call carrying a datum of the given name. *)
Definition is_metric (name : string) (e : event) : bool :=
  match e with
  | PutMetricData _ data => existsb (fun d => String.eqb (MetricName d) name) data
  | _ => false
  end.

Definition is_publish (e : event) : bool :=
  match e with Publish _ _ _ => true | _ => false end.

Definition is_run (e : event) : bool :=
  match e with Run _ _ _ => true | _ => false end.

Definition is_upload (e : event) : bool :=
  match e with UploadFile _ _ _ => true | _ => false end.

Definition is_getsize (e : event) : bool :=
  match e with GetSize _ => true | _ => false end.

Definition is_remove (e : event) : bool :=
  match e with Remove _ => true | _ => false end.

Definition count (p : event -> bool) (l : list event) : nat :=
  List.length (List.filter p l).

(** The calls of a trace: everything but the log records. *)
Definition calls (l : list event) : list event :=
  List.filter (fun e => negb (is_log e)) l.

(** ** The decision tree of [main]

    The exit status and the calls of a run, read off the answers of the
    world; [run_summary] below shows that [main] follows this tree. *)

Definition expected_exit_code (w : World) : Z :=
  if bool_decide (missing_vars (os_environ w) = []) then
    match dump_outcome w with
    | inl _ => 1
    | inr result =>
        if (returncode result =? 0)%Z then
          match upload_outcome w with
          | Some _ => 1
          | None =>
              match size_outcome w with
              | inl _ => 1
              | inr _ => 0
              end
          end
        else 1
    end%Z
  else 1%Z.

Definition expected_calls (w : World) : list event :=
  if bool_decide (missing_vars (os_environ w) = []) then
    Run (pg_dump_command (os_environ w) (run_local_path w))
      (child_env (os_environ w)) 3600
    :: match dump_outcome w with
       | inl e =>
           failure_call w
           :: notify_calls w (handler_subject w e) (handler_message w e)
       | inr result =>
           if (returncode result =? 0)%Z then
             UploadFile (run_local_path w) (S3_BUCKET (os_environ w)) (run_s3_key w)
             :: match upload_outcome w with
                | Some _ =>
                    failure_call w
                    :: notify_calls w (upload_failed_subject w)
                         (upload_failed_message w)
                | None =>
                    GetSize (run_local_path w)
                    :: match size_outcome w with
                       | inl e =>
                           failure_call w
                           :: notify_calls w (handler_subject w e)
                                (handler_message w e)
                       | inr file_size =>
                           [ metric_call w "BackupSuccess" (Int 1) "Count" "Success";
                             metric_call w "BackupSize"
                               (Float (file_size_mb file_size)) "Megabytes" "Success" ]
                           ++ notify_calls w (success_subject w)
                                (success_message (os_environ w) (run_timestamp w)
                                   (run_s3_key w) (file_size_mb file_size))
                           ++ [Remove (run_local_path w)]
                       end
                end
           else
             failure_call w
             :: notify_calls w (dump_failed_subject w) (dump_failed_message w result)
       end
  else [failure_call w].

(** ** Variations of a world *)

(** The same world with other metric and notification transports. *)
Definition with_observability (w : World)
    (put : string -> list MetricDatum -> option exn)
    (publish : string -> string -> string -> option exn) : World :=
  {| os_environ := os_environ w;
     utcnow := utcnow w;
     cloudwatch_put_metric_data := put;
     sns_publish := publish;
     subprocess_run := subprocess_run w;
     s3_upload_file := s3_upload_file w;
     os_path_getsize := os_path_getsize w;
     os_remove := os_remove w |}.

(** The same world with another answer to [os.remove]. *)
Definition with_remove (w : World) (remove : string -> option exn) : World :=
  {| os_environ := os_environ w;
     utcnow := utcnow w;
     cloudwatch_put_metric_data := cloudwatch_put_metric_data w;
     sns_publish := sns_publish w;
     subprocess_run := subprocess_run w;
     s3_upload_file := s3_upload_file w;
     os_path_getsize := os_path_getsize w;
     os_remove := remove |}.

(** The same world with another process environment. *)
Definition with_environ (w : World) (environ : gmap string string) : World :=
  {| os_environ := environ;
     utcnow := utcnow w;
     cloudwatch_put_metric_data := cloudwatch_put_metric_data w;
     sns_publish := sns_publish w;
     subprocess_run := subprocess_run w;
     s3_upload_file := s3_upload_file w;
     os_path_getsize := os_path_getsize w;
     os_remove := os_remove w |}.

(** The same world with another [RDS_PASSWORD]. *)
Definition with_password (w : World) (password : string) : World :=
  with_environ w (<["RDS_PASSWORD" := password]> (os_environ w)).

(** ** Sample worlds *)

Definition sample_environ : gmap string string :=
  list_to_map
    [ ("RDS_HOST", "db.internal"); ("RDS_DB_NAME", "app"); ("RDS_USERNAME", "backup");
      ("RDS_PASSWORD", "s3cret"); ("S3_BUCKET", "mybucket");
      ("SNS_TOPIC_ARN", "arn:aws:sns:ap-northeast-1:1:backups") ].

(** The same configuration without a notification topic. *)
Definition quiet_environ : gmap string string := delete "SNS_TOPIC_ARN" sample_environ.

(** A world whose transports all succeed, with a clock that stands still. *)
Definition sample_world (environ : gmap string string)
    (dump : exn + CompletedProcess) (upload : option exn)
    (size : exn + N) (remove : option exn) : World :=
  {| os_environ := environ;
     utcnow := fun _ => DateTime 2024 3 7 9 5 0;
     cloudwatch_put_metric_data := fun _ _ => None;
     sns_publish := fun _ _ _ => None;
     subprocess_run := fun _ _ _ => dump;
     s3_upload_file := fun _ _ _ => upload;
     os_path_getsize := fun _ => size;
     os_remove := fun _ => remove |}.

Definition dump_ok : exn + CompletedProcess :=
  inr {| returncode := 0; stdout := ""; stderr := "" |}.

Definition dump_error : exn + CompletedProcess :=
  inr {| returncode := 1; stdout := ""; stderr := "pg_dump: error: connection failed" |}.

Definition dump_timeout : exn + CompletedProcess :=
  inl (Exn TimeoutExpired "Command 'pg_dump' timed out after 3600 seconds").

Definition access_denied : exn :=
  Exn ClientError "An error occurred (AccessDenied) when calling the PutObject operation".

(** A run that starts one second before midnight. *)
Definition midnight_world : World :=
  {| os_environ := sample_environ;
     utcnow := fun n =>
       match n with
       | O => DateTime 2024 1 1 23 59 59
       | _ => DateTime 2024 1 2 0 0 0
       end;
     cloudwatch_put_metric_data := fun _ _ => None;
     sns_publish := fun _ _ _ => None;
     subprocess_run := fun _ _ _ => dump_ok;
     s3_upload_file := fun _ _ _ => None;
     os_path_getsize := fun _ => inr 1048576%N;
     os_remove := fun _ => None |}.

(** The same run with a clock that stands still one second before midnight. *)
Definition before_midnight_world : World :=
  {| os_environ := sample_environ;
     utcnow := fun _ => DateTime 2024 1 1 23 59 59;
     cloudwatch_put_metric_data := fun _ _ => None;
     sns_publish := fun _ _ _ => None;
     subprocess_run := fun _ _ _ => dump_ok;
     s3_upload_file := fun _ _ _ => None;
     os_path_getsize := fun _ => inr 1048576%N;
     os_remove := fun _ => None |}.

(** ** Further observations *)

(** The keys the four plain required settings are read from. *)
Definition plain_required_keys : list string :=
  ["RDS_HOST"; "RDS_DB_NAME"; "RDS_USERNAME"; "RDS_PASSWORD"].

(** A trace with the environment of the child process left out. *)
Definition hide_child_env (e : event) : event :=
  match e with
  | Run argv _ timeout => Run argv ∅ timeout
  | other => other
  end.

(** The settings the script reads besides the password. *)
Definition visible_settings : list string :=
  ["RDS_HOST"; "RDS_PORT"; "RDS_DB_NAME"; "RDS_USERNAME"; "S3_BUCKET";
   "SNS_TOPIC_ARN"; "CLOUDWATCH_NAMESPACE"; "AWS_REGION"; "AWS_DEFAULT_REGION"].

(** Two worlds whose clock, AWS clients and file system give the same
    answers to the same calls; the environment and the child process are
    left open. *)
Definition same_answers (w w' : World) : Prop :=
  (forall n, utcnow w' n = utcnow w n)
  /\ (forall ns data,
         cloudwatch_put_metric_data w' ns data = cloudwatch_put_metric_data w ns data)
  /\ (forall topic subject message,
         sns_publish w' topic subject message = sns_publish w topic subject message)
  /\ (forall file_path bucket key,
         s3_upload_file w' file_path bucket key = s3_upload_file w file_path bucket key)
  /\ (forall path, os_path_getsize w' path = os_path_getsize w path)
  /\ (forall path, os_remove w' path = os_remove w path).

(** * Properties *)

(** ** Python string primitives *)

Example parse_bucket_with_path :
  parse_bucket "laravel-ops-data/db-backups" = ("laravel-ops-data", "db-backups/").
Proof. reflexivity. Qed.

Example parse_bucket_plain : parse_bucket "mybucket" = ("mybucket", "").
Proof. reflexivity. Qed.

Example parse_bucket_trailing : parse_bucket "b/p/q///" = ("b", "p/q/").
Proof. reflexivity. Qed.

Example parse_bucket_only_slash : parse_bucket "b/" = ("b", "").
Proof. reflexivity. Qed.

Example parse_bucket_double_slash : parse_bucket "b//" = ("b", "/").
Proof. reflexivity. Qed.

Example strftime_stamp :
  strftime "%Y-%m-%d-%H%M%S" (DateTime 2024 3 7 9 5 0) = "2024-03-07-090500".
Proof. reflexivity. Qed.

Example strftime_date : strftime "%Y/%m/%d" (DateTime 2024 3 7 9 5 0) = "2024/03/07".
Proof. reflexivity. Qed.
Example format_2f_one : format_2f (file_size_mb 1048576) = "1.00".
Proof. reflexivity. Qed.

Example format_2f_tie : format_2f (file_size_mb 131072) = "0.12".
Proof. reflexivity. Qed.

Example format_2f_up : format_2f (file_size_mb 1572864) = "1.50".
Proof. reflexivity. Qed.

Lemma truthy_false (s : string) : Py.truthy s = false <-> s = "".
Proof. destruct s; simpl; split; congruence. Qed.

Lemma truthy_true (s : string) : Py.truthy s = true <-> s <> "".
Proof. destruct s; simpl; split; congruence. Qed.

Lemma truthy_opt_false (v : option string) :
  Py.truthy_opt v = false <-> v = None \/ v = Some "".
Proof.
  destruct v as [s|]; simpl.
  - rewrite truthy_false. split.
    + intros ->. now right.
    + intros [H|H]; congruence.
  - split; auto.
Qed.

Lemma split_zero (c : ascii) (s : string) : Py.split c 0 s = [s].
Proof. destruct s; reflexivity. Qed.

(** Splitting once at the first separator. *)
Lemma split_first (c : ascii) (s : string) :
  Py.contains c s = true ->
  exists before after,
    s = before +:+ String c after /\
    Py.contains c before = false /\
    Py.split c 1 s = [before; after].
Proof.
  induction s as [|a s IH]; simpl; [discriminate|].
  destruct (Ascii.eqb_spec a c) as [->|Hne].
  - intros _. exists "", s. rewrite split_zero. repeat split.
  - intros Hc. destruct (IH Hc) as (b & r & Hs & Hb & Hsp).
    exists (String a b), r. simpl in Hsp. simpl.
    rewrite Hsp. destruct (Ascii.eqb_spec a c); [contradiction|].
    subst s. repeat split; assumption.
Qed.

Lemma split_absent (c : ascii) (s : string) :
  Py.contains c s = false -> Py.split c 1 s = [s].
Proof.
  induction s as [|a s IH]; simpl; [reflexivity|].
  destruct (Ascii.eqb a c); [discriminate|].
  intros Hc. simpl in IH. rewrite (IH Hc). reflexivity.
Qed.

(** [rstrip] removes a run of separators from the end and nothing else, and
    what is left does not end in a separator. *)
Lemma rstrip_spec (c : ascii) (s : string) :
  exists n, s = Py.rstrip c s +:+ Py.repeat c n /\
            Py.ends_with c (Py.rstrip c s) = false.
Proof.
  induction s as [|a s (n & Hs & He)]; simpl.
  - exists 0%nat. split; reflexivity.
  - destruct (Py.rstrip c s) as [|b r] eqn:Hr.
    + change ("" +:+ Py.repeat c n) with (Py.repeat c n) in Hs.
      destruct (Ascii.eqb_spec a c) as [->|Hne].
      * exists (S n). subst s. split; reflexivity.
      * exists n. subst s. split; [reflexivity|].
        simpl. now apply Ascii.eqb_neq.
    + exists n. split.
      * change (String a (String b r) +:+ Py.repeat c n)
          with (String a (String b r +:+ Py.repeat c n)).
        now rewrite <- Hs.
      * exact He.
Qed.

(** ** Bucket and prefix *)

Lemma parse_bucket_slash (raw : string) :
  Py.contains "/"%char raw = true ->
  exists before after,
    raw = before +:+ "/" +:+ after /\
    Py.contains "/"%char before = false /\
    parse_bucket raw =
      (before, if Py.truthy after then Py.rstrip "/"%char after +:+ "/" else "").
Proof.
  intros Hc. destruct (split_first _ _ Hc) as (b & a & Hraw & Hb & Hsp).
  exists b, a. split; [exact Hraw|]. split; [exact Hb|].
  unfold parse_bucket. rewrite Hc, Hsp.
  destruct raw; [discriminate|]. reflexivity.
Qed.

Lemma parse_bucket_no_slash (raw : string) :
  Py.contains "/"%char raw = false -> parse_bucket raw = (raw, "").
Proof.
  intros Hc. unfold parse_bucket. rewrite Hc. now destruct raw.
Qed.

(** C7. For a non-empty combined bucket setting: when it contains ['/'],
    the bucket is the text before the first ['/'] and the prefix is the text
    after it with its trailing ['/'] run removed and one ['/'] appended,
    provided the text after is non-empty (the prefix is empty otherwise);
    without a ['/'] the whole value is the bucket and the prefix is empty.
    ["mybucket/db-backups"] gives [("mybucket", "db-backups/")] and
    ["mybucket"] gives [("mybucket", "")]. *)
Theorem bucket_prefix_parsing :
  (forall raw : string,
      raw <> "" ->
      (Py.contains "/"%char raw = true ->
       exists before after,
         raw = before +:+ "/" +:+ after /\
         Py.contains "/"%char before = false /\
         fst (parse_bucket raw) = before /\
         ((after = "" /\ snd (parse_bucket raw) = "") \/
          (after <> "" /\
           exists stem n,
             after = stem +:+ Py.repeat "/"%char n /\
             Py.ends_with "/"%char stem = false /\
             snd (parse_bucket raw) = stem +:+ "/"))) /\
      (Py.contains "/"%char raw = false -> parse_bucket raw = (raw, ""))) /\
  parse_bucket "mybucket/db-backups" = ("mybucket", "db-backups/") /\
  parse_bucket "mybucket" = ("mybucket", "").
Proof.
  split; [|split; reflexivity].
  intros raw _. split.
  - intros Hc. destruct (parse_bucket_slash raw Hc) as (b & a & Hraw & Hb & Hp).
    exists b, a. rewrite Hp. simpl. repeat split; try assumption.
    destruct a as [|x a'].
    + left. split; reflexivity.
    + right. split; [discriminate|].
      destruct (rstrip_spec "/"%char (String x a')) as (n & Hs & He).
      exists (Py.rstrip "/"%char (String x a')), n. repeat split; assumption.
  - apply parse_bucket_no_slash.
Qed.

(** The setting ["laravel-ops-data/db-backups//"]. *)
Lemma bucket_prefix_parsing_witness :
  exists before after,
    "laravel-ops-data/db-backups//" = before +:+ "/" +:+ after /\
    fst (parse_bucket "laravel-ops-data/db-backups//") = before /\
    snd (parse_bucket "laravel-ops-data/db-backups//") = "db-backups/".
Proof.
  destruct bucket_prefix_parsing as [H _].
  destruct (H "laravel-ops-data/db-backups//" ltac:(discriminate)) as [Hs _].
  destruct (Hs eq_refl) as (b & a & Hraw & _ & Hb & _).
  exists b, a. repeat split; [exact Hraw | exact Hb].
Defined.

(** ** What each helper adds to the trace *)

Ltac unfold_monad :=
  unfold mbind, M_bind, bind, mret, M_ret, ret, log, emit, raise_opt, raise_sum,
    sys_exit, try_except.

Section Helpers.

Variable w : World.

Let environ := os_environ w.

Lemma send_cloudwatch_metric_run metric_name value unit_ status st :
  send_cloudwatch_metric w metric_name value unit_ status st
  = (Normal tt, extend st (metric_events w metric_name value unit_ status)).
Proof.
  unfold send_cloudwatch_metric, metric_events, extend, datum.
  unfold_monad. fold environ.
  destruct (cloudwatch_put_metric_data w _ _) as [e|]; cbn [trace clock_reads].
  - destruct (exn_cls e); cbn [trace clock_reads];
      rewrite <- app_assoc; reflexivity.
  - reflexivity.
Qed.

Lemma send_sns_notification_run subject message st :
  send_sns_notification w subject message st
  = (Normal tt, extend st (notify_events w subject message)).
Proof.
  unfold send_sns_notification, notify_events, extend.
  unfold_monad. fold environ.
  destruct (Py.truthy (SNS_TOPIC_ARN environ)); cbn [negb trace clock_reads].
  - destruct (sns_publish w _ _ _) as [e|]; cbn [trace clock_reads].
    + destruct (exn_cls e); cbn [trace clock_reads];
        rewrite <- app_assoc; reflexivity.
    + rewrite <- app_assoc. reflexivity.
  - rewrite app_nil_r. now destruct st.
Qed.

Lemma upload_to_s3_run file_path bucket key st :
  upload_to_s3 w file_path bucket key st
  = (Normal (bool_decide (s3_upload_file w file_path bucket key = None)),
     extend st (upload_events w file_path bucket key)).
Proof.
  unfold upload_to_s3, upload_events, extend. unfold_monad.
  destruct (s3_upload_file w _ _ _) as [e|]; cbn [trace clock_reads].
  - destruct (exn_cls e); cbn [trace clock_reads];
      rewrite <- app_assoc; reflexivity.
  - rewrite <- app_assoc. reflexivity.
Qed.

End Helpers.

(** ** The runs of [main] *)

Section Run.

Variable w : World.

Let environ := os_environ w.

Ltac reduce_run :=
  cbv beta iota; unfold extend;
  cbn [trace clock_reads init app negb fst snd].

Ltac step :=
  reduce_run;
  repeat (progress
            (rewrite ?send_cloudwatch_metric_run, ?send_sns_notification_run,
               ?upload_to_s3_run);
          reduce_run).

Lemma main_config_invalid :
  missing_vars environ <> [] ->
  main w init
  = (SystemExit 1, {| trace := config_invalid_events w; clock_reads := 0 |}).
Proof.
  intros Hm. unfold environ in *. unfold main, config_invalid_events, failure_metric_events.
  rewrite (bool_decide_eq_false_2 _ Hm).
  unfold_monad. step. reflexivity.
Qed.

Ltac enter_body Hm :=
  unfold environ in *; unfold main;
  rewrite (bool_decide_eq_true_2 _ Hm);
  unfold main_body, datetime_utcnow;
  unfold_monad; step.

Ltac unfold_run :=
  unfold start_events, handler_events, dump_failed_events, upload_step_events,
    upload_failed_events, success_events, cleanup_events, failure_metric_events,
    handler_error, handler_subject, handler_message, dump_failed_subject,
    dump_failed_message, upload_failed_subject, upload_failed_message,
    success_subject,
    dump_outcome, upload_outcome, size_outcome, remove_outcome,
    run_s3_key, run_local_path, run_filename, run_date_path, run_timestamp in *.

Lemma main_dump_raises e :
  missing_vars environ = [] ->
  dump_outcome w = inl e ->
  main w init
  = (SystemExit 1,
     {| trace := start_events w ++ handler_events w e; clock_reads := 3 |}).
Proof.
  intros Hm Hd. unfold_run. enter_body Hm. rewrite Hd. step.
  destruct (exn_cls e); step; reflexivity.
Qed.

Lemma main_dump_failed result :
  missing_vars environ = [] ->
  dump_outcome w = inr result ->
  returncode result <> 0%Z ->
  main w init
  = (SystemExit 1,
     {| trace := start_events w ++ dump_failed_events w result; clock_reads := 2 |}).
Proof.
  intros Hm Hd Hrc. apply Z.eqb_neq in Hrc.
  unfold_run. enter_body Hm. rewrite Hd. step. rewrite Hrc. step.
  reflexivity.
Qed.

Lemma main_upload_failed result e :
  missing_vars environ = [] ->
  dump_outcome w = inr result ->
  returncode result = 0%Z ->
  upload_outcome w = Some e ->
  main w init
  = (SystemExit 1,
     {| trace := start_events w ++ upload_step_events w ++ upload_failed_events w;
        clock_reads := 2 |}).
Proof.
  intros Hm Hd Hrc Hu. apply Z.eqb_eq in Hrc.
  unfold_run. enter_body Hm. rewrite Hd. step. rewrite Hrc. step.
  rewrite Hu. rewrite bool_decide_eq_false_2 by discriminate. step.
  rewrite <- ?app_assoc. reflexivity.
Qed.

Lemma main_size_raises result e :
  missing_vars environ = [] ->
  dump_outcome w = inr result ->
  returncode result = 0%Z ->
  upload_outcome w = None ->
  size_outcome w = inl e ->
  main w init
  = (SystemExit 1,
     {| trace := start_events w ++ upload_step_events w
                 ++ [GetSize (run_local_path w)] ++ handler_events w e;
        clock_reads := 3 |}).
Proof.
  intros Hm Hd Hrc Hu Hs. apply Z.eqb_eq in Hrc.
  unfold_run. enter_body Hm. rewrite Hd. step. rewrite Hrc. step.
  rewrite Hu. rewrite bool_decide_eq_true_2 by reflexivity. step.
  rewrite Hs. step.
  destruct (exn_cls e); step; rewrite <- ?app_assoc; reflexivity.
Qed.

Lemma main_success result file_size :
  missing_vars environ = [] ->
  dump_outcome w = inr result ->
  returncode result = 0%Z ->
  upload_outcome w = None ->
  size_outcome w = inr file_size ->
  main w init
  = (Normal tt,
     {| trace := start_events w ++ upload_step_events w
                 ++ [GetSize (run_local_path w)] ++ success_events w file_size;
        clock_reads := 2 |}).
Proof.
  intros Hm Hd Hrc Hu Hs. apply Z.eqb_eq in Hrc.
  unfold_run. enter_body Hm. rewrite Hd. step. rewrite Hrc. step.
  rewrite Hu. rewrite bool_decide_eq_true_2 by reflexivity. step.
  rewrite Hs. step.
  destruct (os_remove w _) as [e|]; step; rewrite <- ?app_assoc; reflexivity.
Qed.

End Run.

(** ** Exit code and events of each run *)

Section Outcomes.

Variable w : World.

Let environ := os_environ w.

Ltac from_main H :=
  unfold exit_code, events; rewrite H; split; reflexivity.

Lemma run_config_invalid :
  missing_vars environ <> [] ->
  exit_code w = 1%Z /\ events w = config_invalid_events w.
Proof. intros Hm. from_main (main_config_invalid w Hm). Qed.

Lemma run_dump_raises e :
  missing_vars environ = [] ->
  dump_outcome w = inl e ->
  exit_code w = 1%Z /\ events w = start_events w ++ handler_events w e.
Proof. intros Hm Hd. from_main (main_dump_raises w e Hm Hd). Qed.

Lemma run_dump_failed result :
  missing_vars environ = [] ->
  dump_outcome w = inr result ->
  returncode result <> 0%Z ->
  exit_code w = 1%Z /\ events w = start_events w ++ dump_failed_events w result.
Proof. intros Hm Hd Hrc. from_main (main_dump_failed w result Hm Hd Hrc). Qed.

Lemma run_upload_failed result e :
  missing_vars environ = [] ->
  dump_outcome w = inr result ->
  returncode result = 0%Z ->
  upload_outcome w = Some e ->
  exit_code w = 1%Z
  /\ events w = start_events w ++ upload_step_events w ++ upload_failed_events w.
Proof. intros Hm Hd Hrc Hu. from_main (main_upload_failed w result e Hm Hd Hrc Hu). Qed.

Lemma run_size_raises result e :
  missing_vars environ = [] ->
  dump_outcome w = inr result ->
  returncode result = 0%Z ->
  upload_outcome w = None ->
  size_outcome w = inl e ->
  exit_code w = 1%Z
  /\ events w = start_events w ++ upload_step_events w
                ++ [GetSize (run_local_path w)] ++ handler_events w e.
Proof.
  intros Hm Hd Hrc Hu Hs. from_main (main_size_raises w result e Hm Hd Hrc Hu Hs).
Qed.

Lemma run_success result file_size :
  missing_vars environ = [] ->
  dump_outcome w = inr result ->
  returncode result = 0%Z ->
  upload_outcome w = None ->
  size_outcome w = inr file_size ->
  exit_code w = 0%Z
  /\ events w = start_events w ++ upload_step_events w
                ++ [GetSize (run_local_path w)] ++ success_events w file_size.
Proof.
  intros Hm Hd Hrc Hu Hs.
  from_main (main_success w result file_size Hm Hd Hrc Hu Hs).
Qed.

End Outcomes.

(** ** The calls of a trace *)

Lemma calls_app (l1 l2 : list event) : calls (l1 ++ l2) = calls l1 ++ calls l2.
Proof. unfold calls. apply List.filter_app. Qed.

Lemma calls_log lvl msg (l : list event) : calls (Log lvl msg :: l) = calls l.
Proof. reflexivity. Qed.

Lemma count_app p (l1 l2 : list event) : count p (l1 ++ l2) = (count p l1 + count p l2)%nat.
Proof. unfold count. rewrite List.filter_app. apply List.length_app. Qed.

(** A predicate that holds of no log record sees only the calls. *)
Lemma count_calls p (l : list event) :
  (forall lvl msg, p (Log lvl msg) = false) -> count p l = count p (calls l).
Proof.
  intros Hp. unfold count, calls.
  induction l as [|e l IH]; [reflexivity|].
  destruct e; cbn [List.filter is_log negb]; rewrite ?Hp; cbn [List.length];
    try destruct (p _); cbn [List.length]; rewrite ?IH; reflexivity.
Qed.

Section Calls.

Variable w : World.

Let environ := os_environ w.

Lemma calls_metric_events n v u s :
  calls (metric_events w n v u s) = [metric_call w n v u s].
Proof.
  unfold metric_events, metric_call.
  destruct (cloudwatch_put_metric_data w _ _) as [e|]; [destruct (exn_cls e)|];
    reflexivity.
Qed.

Lemma calls_notify_events subject message :
  calls (notify_events w subject message) = notify_calls w subject message.
Proof.
  unfold notify_events, notify_calls.
  destruct (Py.truthy _); [|reflexivity].
  destruct (sns_publish w _ _ _) as [e|]; [destruct (exn_cls e)|]; reflexivity.
Qed.

Lemma calls_upload_events file_path bucket key :
  calls (upload_events w file_path bucket key) = [UploadFile file_path bucket key].
Proof.
  unfold upload_events.
  destruct (s3_upload_file w _ _ _) as [e|]; [destruct (exn_cls e)|]; reflexivity.
Qed.

Lemma calls_config_invalid_events :
  calls (config_invalid_events w) = [failure_call w].
Proof.
  unfold config_invalid_events, failure_metric_events.
  rewrite calls_log. apply calls_metric_events.
Qed.

Lemma calls_start_events :
  calls (start_events w)
  = [Run (pg_dump_command environ (run_local_path w)) (child_env environ) 3600].
Proof. reflexivity. Qed.

Lemma calls_handler_events e :
  calls (handler_events w e)
  = failure_call w :: notify_calls w (handler_subject w e) (handler_message w e).
Proof.
  unfold handler_events, failure_metric_events.
  rewrite calls_log, calls_app, calls_metric_events, calls_notify_events.
  reflexivity.
Qed.

Lemma calls_dump_failed_events result :
  calls (dump_failed_events w result)
  = failure_call w
    :: notify_calls w (dump_failed_subject w) (dump_failed_message w result).
Proof.
  unfold dump_failed_events, failure_metric_events.
  rewrite calls_log, calls_app, calls_metric_events, calls_notify_events.
  reflexivity.
Qed.

Lemma calls_upload_step_events :
  calls (upload_step_events w)
  = [UploadFile (run_local_path w) (S3_BUCKET environ) (run_s3_key w)].
Proof.
  unfold upload_step_events. rewrite calls_app, calls_upload_events. reflexivity.
Qed.

Lemma calls_upload_failed_events :
  calls (upload_failed_events w)
  = failure_call w :: notify_calls w (upload_failed_subject w) (upload_failed_message w).
Proof.
  unfold upload_failed_events, failure_metric_events.
  rewrite calls_app, calls_metric_events, calls_notify_events. reflexivity.
Qed.

Lemma calls_cleanup_events : calls (cleanup_events w) = [Remove (run_local_path w)].
Proof. unfold cleanup_events. destruct (remove_outcome w); reflexivity. Qed.

Lemma calls_success_events file_size :
  calls (success_events w file_size)
  = [ metric_call w "BackupSuccess" (Int 1) "Count" "Success";
      metric_call w "BackupSize" (Float (file_size_mb file_size)) "Megabytes" "Success" ]
    ++ notify_calls w (success_subject w)
         (success_message environ (run_timestamp w) (run_s3_key w)
            (file_size_mb file_size))
    ++ [Remove (run_local_path w)].
Proof.
  unfold success_events.
  rewrite !calls_app, !calls_metric_events, calls_notify_events, calls_cleanup_events.
  reflexivity.
Qed.

End Calls.

Create Rewrite HintDb calls.

#[local] Hint Rewrite calls_app calls_log calls_config_invalid_events calls_start_events
  calls_handler_events calls_dump_failed_events calls_upload_step_events
  calls_upload_failed_events calls_success_events : calls.

(** ** Substrings *)

Lemma append_assoc (a b c : string) : (a +:+ b) +:+ c = a +:+ (b +:+ c).
Proof.
  induction a as [|x a IH]; [reflexivity|].
  change (String x ((a +:+ b) +:+ c) = String x (a +:+ (b +:+ c))).
  now rewrite IH.
Qed.

Lemma substring_here needle post : Py.substring_of needle (needle +:+ post).
Proof. exists "", post. reflexivity. Qed.

Lemma substring_end needle : Py.substring_of needle needle.
Proof.
  exists "", "". change (needle = needle +:+ ""). 
  induction needle as [|x s IH]; [reflexivity|].
  change (String x s = String x (s +:+ "")). now rewrite <- IH.
Qed.

Lemma substring_skip needle p s :
  Py.substring_of needle s -> Py.substring_of needle (p +:+ s).
Proof.
  intros (pre & post & ->). exists (p +:+ pre), post. now rewrite append_assoc.
Qed.

(** Every element of a list occurs in the joined string. *)
Lemma join_contains sep k (l : list string) :
  In k l -> Py.substring_of k (Py.join sep l).
Proof.
  unfold Py.join. induction l as [|x l IH]; [intros []|].
  intros [->|Hin].
  - destruct l as [|y l]; [apply substring_end | apply substring_here].
  - destruct l as [|y l]; [destruct Hin|].
    change (Py.substring_of k (x +:+ sep +:+ String.concat sep (y :: l))).
    do 2 apply substring_skip. now apply IH.
Qed.

(** ** Validation of the configuration *)

Lemma required_vars_keys env : map fst (required_vars env) = required_keys.
Proof. reflexivity. Qed.

Lemma missing_vars_In env k :
  In k (missing_vars env)
  <-> exists v, In (k, v) (required_vars env) /\ Py.truthy_opt v = false.
Proof.
  unfold missing_vars. rewrite in_map_iff. split.
  - intros ([k' v] & Hk & Hin). simpl in Hk. subst k'.
    apply filter_In in Hin as [Hin Hv]. exists v. split; [exact Hin|].
    simpl in Hv. now apply negb_true_iff in Hv.
  - intros (v & Hin & Hv). exists (k, v). split; [reflexivity|].
    apply filter_In. split; [exact Hin|]. simpl. now rewrite Hv.
Qed.

Lemma bucket_of_falsy (env : gmap string string) :
  env !! "S3_BUCKET" = None \/ env !! "S3_BUCKET" = Some "" -> S3_BUCKET env = "".
Proof. unfold S3_BUCKET, S3_BUCKET_RAW. intros [-> | ->]; reflexivity. Qed.

Lemma parse_bucket_leading_slash rest : fst (parse_bucket (String "/" rest)) = "".
Proof. destruct rest; reflexivity. Qed.

(** A required key without a value, or with the empty value, is listed. *)
Lemma falsy_is_missing (env : gmap string string) k :
  In k required_keys ->
  env !! k = None \/ env !! k = Some "" ->
  In k (missing_vars env).
Proof.
  intros Hk Hv. apply missing_vars_In. unfold required_keys in Hk.
  destruct Hk as [<-|[<-|[<-|[<-|[<-|[]]]]]].
  - exists (RDS_HOST env). split; [now left|]. now apply truthy_opt_false.
  - exists (RDS_DB_NAME env). split; [right; now left|]. now apply truthy_opt_false.
  - exists (RDS_USERNAME env). split; [do 2 right; now left|].
    now apply truthy_opt_false.
  - exists (RDS_PASSWORD env). split; [do 3 right; now left|].
    now apply truthy_opt_false.
  - exists (Some (S3_BUCKET env)). split; [do 4 right; now left|].
    now rewrite (bucket_of_falsy env Hv).
Qed.

Lemma count_error_config_invalid w : count is_error_log (config_invalid_events w) = 1%nat.
Proof.
  unfold config_invalid_events, failure_metric_events, metric_events.
  destruct (cloudwatch_put_metric_data w _ _) as [e|]; [destruct (exn_cls e)|];
    reflexivity.
Qed.

(** C2. When a required configuration value is absent the run exits with
    status 1; its only call is the one [BackupFailure] metric: the dump tool
    is not started, nothing is uploaded and nothing is published; and the one
    error record it logs names every required key that has no value. *)
Theorem missing_configuration_fails_fast (w : World) (k : string) :
  In k required_keys ->
  os_environ w !! k = None ->
  exit_code w = 1%Z
  /\ events w
     = Log ERROR ("缺少必需的环境变量: " +:+ Py.join ", " (missing_vars (os_environ w)))
       :: metric_events w "BackupFailure" (Int 1) "Count" "Failed"
  /\ (forall k', In k' required_keys -> os_environ w !! k' = None ->
                 In k' (missing_vars (os_environ w))
                 /\ Py.substring_of k'
                      ("缺少必需的环境变量: "
                       +:+ Py.join ", " (missing_vars (os_environ w))))
  /\ count is_error_log (events w) = 1%nat
  /\ calls (events w) = [failure_call w]
  /\ count (is_metric "BackupFailure") (events w) = 1%nat
  /\ count is_put_metric (events w) = 1%nat
  /\ count is_publish (events w) = 0%nat
  /\ count is_run (events w) = 0%nat
  /\ count is_upload (events w) = 0%nat.
Proof.
  intros Hk Hnone.
  assert (Hin : In k (missing_vars (os_environ w)))
    by (apply falsy_is_missing; auto).
  assert (Hm : missing_vars (os_environ w) <> [])
    by (intros E; rewrite E in Hin; exact Hin).
  destruct (run_config_invalid w Hm) as [Hexit Hev].
  assert (Hcalls : calls (events w) = [failure_call w])
    by (rewrite Hev; apply calls_config_invalid_events).
  split; [exact Hexit|]. split; [exact Hev|].
  split.
  { intros k' Hk' Hn'.
    assert (In k' (missing_vars (os_environ w))) by (apply falsy_is_missing; auto).
    split; [assumption|]. now apply substring_skip, join_contains. }
  split; [rewrite Hev; apply count_error_config_invalid|].
  split; [exact Hcalls|].
  repeat split; (rewrite count_calls by reflexivity); rewrite Hcalls; reflexivity.
Qed.

(** A run without [RDS_PASSWORD]. *)
Lemma missing_configuration_fails_fast_witness :
  exit_code (sample_world (delete "RDS_PASSWORD" sample_environ)
               dump_ok None (inr 1048576%N) None) = 1%Z
  /\ count is_run (events (sample_world (delete "RDS_PASSWORD" sample_environ)
                             dump_ok None (inr 1048576%N) None)) = 0%nat.
Proof.
  destruct (missing_configuration_fails_fast
              (sample_world (delete "RDS_PASSWORD" sample_environ)
                 dump_ok None (inr 1048576%N) None)
              "RDS_PASSWORD")
    as (Hexit & _ & _ & _ & _ & _ & _ & _ & Hrun & _).
  - vm_compute. tauto.
  - vm_compute. reflexivity.
  - split; [exact Hexit | exact Hrun].
Defined.

Lemma missing_vars_delete_empty (env : gmap string string) k :
  In k required_keys ->
  env !! k = Some "" ->
  missing_vars (delete k env) = missing_vars env.
Proof.
  intros Hk Hv. unfold required_keys in Hk.
  unfold missing_vars, required_vars, S3_BUCKET, S3_BUCKET_RAW,
    RDS_HOST, RDS_DB_NAME, RDS_USERNAME, RDS_PASSWORD.
  destruct Hk as [<-|[<-|[<-|[<-|[<-|[]]]]]];
    rewrite lookup_delete_eq, !lookup_delete_ne by discriminate;
    rewrite Hv;
    cbn [List.filter negb Py.truthy_opt Py.truthy snd fst default id parse_bucket];
    repeat match goal with
      | |- context [if negb ?b then _ else _] => destruct b; cbn [negb]
      end;
    reflexivity.
Qed.

(** C10. A required key whose value is the empty string is listed as
    missing, just as when it has no value at all: the list of missing keys is
    the one obtained with the key removed from the environment, and both runs
    end with status 1 on the validation error.  A bucket setting that starts
    with ['/'] gives the empty bucket name, so [S3_BUCKET] is listed as
    missing and the run ends with status 1. *)
Theorem empty_value_is_missing :
  (forall (w : World) (k : string),
      In k required_keys ->
      os_environ w !! k = Some "" ->
      (In k (missing_vars (os_environ w))
       /\ Py.substring_of k
            ("缺少必需的环境变量: " +:+ Py.join ", " (missing_vars (os_environ w))))
      /\ missing_vars (os_environ w) = missing_vars (delete k (os_environ w))
      /\ exit_code w = 1%Z
      /\ events w = config_invalid_events w
      /\ exit_code (with_environ w (delete k (os_environ w))) = 1%Z
      /\ events (with_environ w (delete k (os_environ w)))
         = config_invalid_events (with_environ w (delete k (os_environ w))))
  /\ (forall (w : World) (rest : string),
         os_environ w !! "S3_BUCKET" = Some (String "/" rest) ->
         S3_BUCKET (os_environ w) = ""
         /\ In "S3_BUCKET" (missing_vars (os_environ w))
         /\ exit_code w = 1%Z
         /\ events w = config_invalid_events w).
Proof.
  split.
  - intros w k Hk Hv.
    assert (Hin : In k (missing_vars (os_environ w)))
      by (apply falsy_is_missing; auto).
    assert (Hm : missing_vars (os_environ w) <> [])
      by (intros E; rewrite E in Hin; exact Hin).
    pose proof (missing_vars_delete_empty _ _ Hk Hv) as Hdel.
    split; [split; [exact Hin | now apply substring_skip, join_contains]|].
    split; [now symmetry|].
    split; [apply (run_config_invalid w Hm)|].
    split; [apply (run_config_invalid w Hm)|].
    split; apply run_config_invalid; cbn [os_environ with_environ];
      rewrite Hdel; exact Hm.
  - intros w rest Hv.
    assert (Hb : S3_BUCKET (os_environ w) = "").
    { unfold S3_BUCKET, S3_BUCKET_RAW. rewrite Hv. cbn [default].
      apply parse_bucket_leading_slash. }
    assert (Hin : In "S3_BUCKET" (missing_vars (os_environ w))).
    { apply missing_vars_In. exists (Some (S3_BUCKET (os_environ w))).
      split; [do 4 right; now left|]. now rewrite Hb. }
    assert (Hm : missing_vars (os_environ w) <> [])
      by (intros E; rewrite E in Hin; exact Hin).
    split; [exact Hb|]. split; [exact Hin|]. apply (run_config_invalid w Hm).
Qed.

(** A run with an empty [RDS_HOST], and one with the bucket setting ["/foo"]. *)
Lemma empty_value_is_missing_witness :
  exit_code (sample_world (<["RDS_HOST" := ""]> sample_environ)
               dump_ok None (inr 1048576%N) None) = 1%Z
  /\ exit_code (sample_world (<["S3_BUCKET" := "/foo"]> sample_environ)
                  dump_ok None (inr 1048576%N) None) = 1%Z.
Proof.
  destruct empty_value_is_missing as [Hempty Hslash]. split.
  - destruct (Hempty (sample_world (<["RDS_HOST" := ""]> sample_environ)
                        dump_ok None (inr 1048576%N) None) "RDS_HOST")
      as (_ & _ & Hexit & _).
    + vm_compute. tauto.
    + vm_compute. reflexivity.
    + exact Hexit.
  - destruct (Hslash (sample_world (<["S3_BUCKET" := "/foo"]> sample_environ)
                        dump_ok None (inr 1048576%N) None) "foo")
      as (_ & _ & Hexit & _).
    + vm_compute. reflexivity.
    + exact Hexit.
Defined.

(** ** A valid configuration *)

Lemma valid_truthy (env : gmap string string) k v :
  missing_vars env = [] -> In (k, v) (required_vars env) -> Py.truthy_opt v = true.
Proof.
  intros Hm Hin. destruct (Py.truthy_opt v) eqn:Hv; [reflexivity|].
  assert (In k (missing_vars env)) as Hk by (apply missing_vars_In; eauto).
  rewrite Hm in Hk. destruct Hk.
Qed.

Lemma truthy_opt_true v :
  Py.truthy_opt v = true -> exists s, v = Some s /\ s <> "".
Proof.
  destruct v as [s|]; [|discriminate]. intros H. exists s. split; [reflexivity|].
  now apply truthy_true.
Qed.

(** With nothing missing, every required value is a non-empty string. *)
Lemma valid_config_values (env : gmap string string) :
  missing_vars env = [] ->
  exists host db user password,
    (RDS_HOST env = Some host /\ host <> "")
    /\ (RDS_DB_NAME env = Some db /\ db <> "")
    /\ (RDS_USERNAME env = Some user /\ user <> "")
    /\ (RDS_PASSWORD env = Some password /\ password <> "")
    /\ S3_BUCKET env <> "".
Proof.
  intros Hm.
  destruct (truthy_opt_true _ (valid_truthy env "RDS_HOST" _ Hm ltac:(now left)))
    as (host & Hh).
  destruct (truthy_opt_true _
              (valid_truthy env "RDS_DB_NAME" _ Hm ltac:(right; now left)))
    as (db & Hd).
  destruct (truthy_opt_true _
              (valid_truthy env "RDS_USERNAME" _ Hm ltac:(do 2 right; now left)))
    as (user & Hu).
  destruct (truthy_opt_true _
              (valid_truthy env "RDS_PASSWORD" _ Hm ltac:(do 3 right; now left)))
    as (pw & Hp).
  destruct (truthy_opt_true _
              (valid_truthy env "S3_BUCKET" _ Hm ltac:(do 4 right; now left)))
    as (b & Hb & Hbne).
  exists host, db, user, pw. repeat split; try tauto.
  injection Hb as <-. exact Hbne.
Qed.

(** ** Counting through the calls *)

Lemma filter_calls p (l : list event) :
  (forall lvl msg, p (Log lvl msg) = false) ->
  List.filter p l = List.filter p (calls l).
Proof.
  intros Hp. unfold calls.
  induction l as [|e l IH]; [reflexivity|].
  destruct e; cbn [List.filter is_log negb]; rewrite ?Hp, ?IH; reflexivity.
Qed.

Lemma filter_publish_notify_calls w subject message :
  List.filter is_publish (notify_calls w subject message)
  = notify_calls w subject message.
Proof. unfold notify_calls. destruct (Py.truthy _); reflexivity. Qed.

Lemma count_publish_notify_calls w subject message :
  count is_publish (notify_calls w subject message)
  = if Py.truthy (SNS_TOPIC_ARN (os_environ w)) then 1%nat else 0%nat.
Proof. unfold notify_calls. destruct (Py.truthy _); reflexivity. Qed.

Lemma count_other_notify_calls p w subject message :
  (forall t s m, p (Publish t s m) = false) ->
  count p (notify_calls w subject message) = 0%nat.
Proof.
  intros Hp. unfold notify_calls, count.
  destruct (Py.truthy _); cbn [List.filter]; rewrite ?Hp; reflexivity.
Qed.

(** ** The successful run *)

Ltac count_by_calls Hcalls :=
  rewrite count_calls by reflexivity; rewrite Hcalls;
  unfold notify_calls; destruct (Py.truthy _); reflexivity.

Lemma calls_success w result file_size :
  missing_vars (os_environ w) = [] ->
  dump_outcome w = inr result ->
  returncode result = 0%Z ->
  upload_outcome w = None ->
  size_outcome w = inr file_size ->
  calls (events w)
  = [ Run (pg_dump_command (os_environ w) (run_local_path w))
        (child_env (os_environ w)) 3600;
      UploadFile (run_local_path w) (S3_BUCKET (os_environ w)) (run_s3_key w);
      GetSize (run_local_path w);
      metric_call w "BackupSuccess" (Int 1) "Count" "Success";
      metric_call w "BackupSize" (Float (file_size_mb file_size)) "Megabytes" "Success" ]
    ++ notify_calls w (success_subject w)
         (success_message (os_environ w) (run_timestamp w) (run_s3_key w)
            (file_size_mb file_size))
    ++ [Remove (run_local_path w)].
Proof.
  intros Hm Hd Hrc Hu Hs.
  destruct (run_success w result file_size Hm Hd Hrc Hu Hs) as [_ Hev].
  rewrite Hev. autorewrite with calls. reflexivity.
Qed.

Lemma append_nil_r (s : string) : s +:+ "" = s.
Proof.
  induction s as [|x s IH]; [reflexivity|].
  change (String x (s +:+ "") = String x s). now rewrite IH.
Qed.

Lemma strftime_date_path (t : datetime) :
  strftime "%Y/%m/%d" t
  = zfill 4 (pretty (year t)) +:+ "/" +:+ zfill 2 (pretty (month t)) +:+ "/"
    +:+ zfill 2 (pretty (day t)).
Proof.
  cbn [strftime Ascii.eqb Bool.eqb directive]. now rewrite append_nil_r.
Qed.

Lemma strftime_timestamp (t : datetime) :
  strftime "%Y-%m-%d-%H%M%S" t
  = zfill 4 (pretty (year t)) +:+ "-" +:+ zfill 2 (pretty (month t)) +:+ "-"
    +:+ zfill 2 (pretty (day t)) +:+ "-" +:+ zfill 2 (pretty (hour t))
    +:+ zfill 2 (pretty (minute t)) +:+ zfill 2 (pretty (second t)).
Proof.
  cbn [strftime Ascii.eqb Bool.eqb directive]. now rewrite append_nil_r.
Qed.

(** The text of a number of hundredths. *)
Lemma format_2f_cents (q : Q) :
  (0 <= Qnum q)%Z ->
  exists cents : Z,
    format_2f q = pretty (cents / 100)%Z +:+ "." +:+ zfill 2 (pretty (cents mod 100)%Z)
    /\ (0 <= cents)%Z
    /\ (2 * Z.abs (100 * Qnum q - cents * Zpos (Qden q)) <= Zpos (Qden q))%Z
    /\ ((2 * Z.abs (100 * Qnum q - cents * Zpos (Qden q)) = Zpos (Qden q))%Z ->
        Z.even cents = true).
Proof.
  intros Hq. unfold format_2f.
  set (num := (100 * Qnum q)%Z). set (den := Zpos (Qden q)).
  assert (Hden : (0 < den)%Z) by (subst den; lia).
  pose proof (Z.div_mod num den ltac:(lia)) as Hdm.
  pose proof (Z.mod_pos_bound num den Hden) as Hr.
  assert (Hn0 : (0 <= num / den)%Z) by (apply Z.div_pos; subst num; lia).
  set (n := (num / den)%Z) in *. set (r := (num mod den)%Z) in *.
  destruct ((den <? 2 * r)%Z || ((2 * r =? den)%Z && Z.odd n)) eqn:Hc.
  - exists (n + 1)%Z. split; [reflexivity|]. split; [lia|].
    apply orb_true_iff in Hc.
    assert (Hge : (den <= 2 * r)%Z).
    { destruct Hc as [Hc|Hc]; [apply Z.ltb_lt in Hc; lia|].
      apply andb_true_iff in Hc as [Hc _]. apply Z.eqb_eq in Hc. lia. }
    replace (num - (n + 1) * den)%Z with (r - den)%Z by lia.
    split; [lia|]. intros Htie.
    assert (Heq : (2 * r = den)%Z) by lia.
    destruct Hc as [Hc|Hc]; [apply Z.ltb_lt in Hc; lia|].
    apply andb_true_iff in Hc as [_ Hodd].
    rewrite Z.even_add, <- Z.negb_odd, Hodd. reflexivity.
  - exists n. split; [reflexivity|]. split; [lia|].
    apply orb_false_iff in Hc as [Hlt Htie']. apply Z.ltb_ge in Hlt.
    replace (num - n * den)%Z with r by lia.
    split; [lia|]. intros Htie.
    assert (Heq : (2 * r = den)%Z) by lia.
    apply Z.eqb_eq in Heq. rewrite Heq in Htie'. cbn [andb] in Htie'.
    now rewrite <- Z.negb_odd, Htie'.
Qed.

(** The size text of an artifact: the number of hundredths of a megabyte
    nearest to its size, ties going to the even number. *)
Lemma format_2f_file_size (file_size : N) :
  exists cents : Z,
    format_2f (file_size_mb file_size)
    = pretty (cents / 100)%Z +:+ "." +:+ zfill 2 (pretty (cents mod 100)%Z)
    /\ (0 <= cents)%Z
    /\ (2 * Z.abs (100 * Z.of_N file_size - cents * 1048576) <= 1048576)%Z
    /\ ((2 * Z.abs (100 * Z.of_N file_size - cents * 1048576) = 1048576)%Z ->
        Z.even cents = true).
Proof.
  pose proof (Qred_correct (Z.of_N file_size # 1048576)) as Hred.
  unfold Qeq in Hred. cbn [Qnum Qden] in Hred.
  fold (file_size_mb file_size) in Hred.
  set (q := file_size_mb file_size) in *.
  set (a := Qnum q) in *. set (d := Zpos (Qden q)) in *.
  assert (Hd : (0 < d)%Z) by (subst d; lia).
  assert (Ha : (0 <= a)%Z) by nia.
  destruct (format_2f_cents q Ha) as (cents & Htext & Hpos & Hnear & Htie).
  fold a d in Hnear, Htie.
  exists cents. split; [exact Htext|]. split; [exact Hpos|].
  assert (Hscale : (d * (100 * Z.of_N file_size - cents * 1048576)
                    = 1048576 * (100 * a - cents * d))%Z) by nia.
  assert (Habs : (d * Z.abs (100 * Z.of_N file_size - cents * 1048576)
                  = 1048576 * Z.abs (100 * a - cents * d))%Z).
  { rewrite <- (Z.abs_eq d) at 1 by lia. rewrite <- Z.abs_mul, Hscale, Z.abs_mul.
    reflexivity. }
  split.
  - apply (Z.mul_le_mono_pos_l _ _ d Hd). nia.
  - intros E. apply Htie. nia.
Qed.

Lemma success_message_contents (env : gmap string string) host db timestamp key size_mb :
  RDS_HOST env = Some host ->
  RDS_DB_NAME env = Some db ->
  let message := success_message env timestamp key size_mb in
  Py.substring_of db message
  /\ Py.substring_of host message
  /\ Py.substring_of timestamp message
  /\ Py.substring_of ("s3://" +:+ S3_BUCKET env +:+ "/" +:+ key) message
  /\ Py.substring_of (format_2f size_mb +:+ " MB") message.
Proof.
  intros Hh Hd message. subst message. unfold success_message.
  rewrite Hh, Hd. cbn [Py.str].
  repeat split.
  - do 4 apply substring_skip. apply substring_here.
  - do 7 apply substring_skip. apply substring_here.
  - do 10 apply substring_skip. apply substring_here.
  - do 12 apply substring_skip.
    exists "S3 位置: ", (nl +:+ "文件大小: " +:+ format_2f size_mb +:+ " MB" +:+ nl).
    rewrite !append_assoc. reflexivity.
  - do 18 apply substring_skip.
    exists "", nl. rewrite !append_assoc. reflexivity.
Qed.

(** C1, as stated, fails: when reading the size of the artifact raises
    after a successful upload, the run ends with status 1. *)
Lemma successful_run_size_counterexample :
  ~ (forall (w : World) (result : CompletedProcess),
        missing_vars (os_environ w) = [] ->
        dump_outcome w = inr result ->
        returncode result = 0%Z ->
        upload_outcome w = None ->
        exit_code w = 0%Z
        /\ count (is_metric "BackupSuccess") (events w) = 1%nat).
Proof.
  intros H.
  destruct (H (sample_world sample_environ dump_ok None
                 (inl (Exn OtherException "[Errno 2] No such file or directory"))
                 None)
              {| returncode := 0; stdout := ""; stderr := "" |})
    as [Hexit _].
  - vm_compute. reflexivity.
  - reflexivity.
  - reflexivity.
  - reflexivity.
  - assert (E : exit_code
                  (sample_world sample_environ dump_ok None
                     (inl (Exn OtherException "[Errno 2] No such file or directory"))
                     None) = 1%Z) by (vm_compute; reflexivity).
    rewrite E in Hexit. discriminate Hexit.
Qed.

(** C1, amended. In a run with every required value present in which
    [pg_dump] returns status 0, the upload succeeds and the size of the
    artifact is then read as [file_size] bytes: the exit status is 0; exactly
    one [BackupSuccess] metric, of value 1, and exactly one [BackupSize]
    metric, whose value is [file_size] divided by 1,048,576 (1 for a file of
    1,048,576 bytes), are published, and no other metric; with a
    notification topic configured exactly one notification is published,
    none without.  Its body is the success message, given here in full: it
    names the database, the host, the time stamp [YYYY-MM-DD-HHMMSS] of the
    first reading of the clock, the location [s3://<bucket>/<key>] of the
    upload, and the size in megabytes with two decimals, which is the number
    of hundredths nearest to [file_size] / 1,048,576, a tie going to the even
    number (["1.00"] for 1,048,576 bytes, ["1.50"] for 1,572,864, ["0.12"] for
    131,072, ["0.01"] for 5,243). *)
Theorem successful_run (w : World) (result : CompletedProcess) (file_size : N) :
  missing_vars (os_environ w) = [] ->
  dump_outcome w = inr result ->
  returncode result = 0%Z ->
  upload_outcome w = None ->
  size_outcome w = inr file_size ->
  let message :=
    success_message (os_environ w) (run_timestamp w) (run_s3_key w)
      (file_size_mb file_size) in
  let stamp :=
    zfill 4 (pretty (year (utcnow w 0))) +:+ "-"
    +:+ zfill 2 (pretty (month (utcnow w 0))) +:+ "-"
    +:+ zfill 2 (pretty (day (utcnow w 0))) +:+ "-"
    +:+ zfill 2 (pretty (hour (utcnow w 0)))
    +:+ zfill 2 (pretty (minute (utcnow w 0)))
    +:+ zfill 2 (pretty (second (utcnow w 0))) in
  exit_code w = 0%Z
  /\ List.filter (is_metric "BackupSuccess") (events w)
     = [metric_call w "BackupSuccess" (Int 1) "Count" "Success"]
  /\ List.filter (is_metric "BackupSize") (events w)
     = [metric_call w "BackupSize" (Float (file_size_mb file_size)) "Megabytes" "Success"]
  /\ count is_put_metric (events w) = 2%nat
  /\ (file_size_mb file_size == Z.of_N file_size # 1048576)%Q
  /\ file_size_mb 1048576 = 1%Q
  /\ List.filter is_publish (events w) = notify_calls w (success_subject w) message
  /\ count is_publish (events w)
     = (if Py.truthy (SNS_TOPIC_ARN (os_environ w)) then 1%nat else 0%nat)
  /\ (exists host db,
        RDS_HOST (os_environ w) = Some host
        /\ RDS_DB_NAME (os_environ w) = Some db
        /\ Py.substring_of db message
        /\ Py.substring_of host message
        /\ Py.substring_of (run_timestamp w) message
        /\ Py.substring_of
             ("s3://" +:+ S3_BUCKET (os_environ w) +:+ "/" +:+ run_s3_key w) message
        /\ Py.substring_of (format_2f (file_size_mb file_size) +:+ " MB") message
        /\ exists cents : Z,
             (0 <= cents)%Z
             /\ (2 * Z.abs (100 * Z.of_N file_size - cents * 1048576) <= 1048576)%Z
             /\ ((2 * Z.abs (100 * Z.of_N file_size - cents * 1048576) = 1048576)%Z ->
                 Z.even cents = true)
             /\ message
                = "RDS 备份成功完成" +:+ nl +:+ nl
                  +:+ "数据库: " +:+ db +:+ nl
                  +:+ "主机: " +:+ host +:+ nl
                  +:+ "时间: " +:+ stamp +:+ nl
                  +:+ "S3 位置: s3://" +:+ S3_BUCKET (os_environ w) +:+ "/"
                  +:+ run_s3_key w +:+ nl
                  +:+ "文件大小: "
                  +:+ (pretty (cents / 100)%Z +:+ "." +:+ zfill 2 (pretty (cents mod 100)%Z))
                  +:+ " MB" +:+ nl)
  /\ In (UploadFile (run_local_path w) (S3_BUCKET (os_environ w)) (run_s3_key w))
        (events w)
  /\ format_2f (file_size_mb 1048576) = "1.00"
  /\ format_2f (file_size_mb 1572864) = "1.50"
  /\ format_2f (file_size_mb 131072) = "0.12"
  /\ format_2f (file_size_mb 5243) = "0.01"
  /\ success_message sample_environ
       (strftime "%Y-%m-%d-%H%M%S" (DateTime 2024 3 7 9 5 0))
       "backups/2024/03/07/backup-app-2024-03-07-090500.dump"
       (file_size_mb 1572864)
     = "RDS 备份成功完成" +:+ nl +:+ nl
       +:+ "数据库: app" +:+ nl
       +:+ "主机: db.internal" +:+ nl
       +:+ "时间: 2024-03-07-090500" +:+ nl
       +:+ "S3 位置: s3://mybucket/backups/2024/03/07/backup-app-2024-03-07-090500.dump"
       +:+ nl
       +:+ "文件大小: 1.50 MB" +:+ nl.
Proof.
  intros Hm Hd Hrc Hu Hs message stamp.
  destruct (run_success w result file_size Hm Hd Hrc Hu Hs) as [Hexit Hev].
  pose proof (calls_success w result file_size Hm Hd Hrc Hu Hs) as Hcalls.
  fold message in Hcalls.
  split; [exact Hexit|].
  split.
  { rewrite filter_calls by reflexivity. rewrite Hcalls.
    unfold notify_calls. destruct (Py.truthy _); reflexivity. }
  split.
  { rewrite filter_calls by reflexivity. rewrite Hcalls.
    unfold notify_calls. destruct (Py.truthy _); reflexivity. }
  split; [count_by_calls Hcalls|].
  split; [apply Qred_correct|].
  split; [reflexivity|].
  split.
  { rewrite filter_calls by reflexivity. rewrite Hcalls.
    unfold notify_calls. destruct (Py.truthy _); reflexivity. }
  split; [count_by_calls Hcalls|].
  split.
  { destruct (valid_config_values _ Hm)
      as (host & db & _ & _ & (Hh & _) & (Hdb & _) & _).
    exists host, db. split; [exact Hh|]. split; [exact Hdb|].
    destruct (success_message_contents (os_environ w) host db (run_timestamp w)
                (run_s3_key w) (file_size_mb file_size) Hh Hdb)
      as (H1 & H2 & H3 & H4 & H5).
    do 5 (split; [assumption|]).
    destruct (format_2f_file_size file_size) as (cents & Htext & Hpos & Hnear & Htie).
    exists cents. do 3 (split; [assumption|]).
    subst message stamp. unfold success_message, run_timestamp.
    rewrite Hh, Hdb, Htext, strftime_timestamp. reflexivity. }
  split.
  { rewrite Hev. apply in_or_app. right. apply in_or_app. left.
    unfold upload_step_events. apply in_or_app. right. now left. }
  repeat split; vm_compute; reflexivity.
Qed.

(** A run that succeeds with an artifact of 1,048,576 bytes. *)
Lemma successful_run_witness :
  exit_code (sample_world sample_environ dump_ok None (inr 1048576%N) None) = 0%Z
  /\ count is_publish
       (events (sample_world sample_environ dump_ok None (inr 1048576%N) None))
     = 1%nat.
Proof.
  destruct (successful_run
              (sample_world sample_environ dump_ok None (inr 1048576%N) None)
              {| returncode := 0; stdout := ""; stderr := "" |} 1048576%N)
    as (Hexit & _ & _ & _ & _ & _ & _ & Hpub & _).
  - vm_compute. reflexivity.
  - reflexivity.
  - reflexivity.
  - reflexivity.
  - reflexivity.
  - split; [exact Hexit | exact Hpub].
Defined.

(** ** Failure of the dump *)

Lemma calls_dump_failed w result :
  missing_vars (os_environ w) = [] ->
  dump_outcome w = inr result ->
  returncode result <> 0%Z ->
  calls (events w)
  = Run (pg_dump_command (os_environ w) (run_local_path w))
      (child_env (os_environ w)) 3600
    :: failure_call w
    :: notify_calls w (dump_failed_subject w) (dump_failed_message w result).
Proof.
  intros Hm Hd Hrc. destruct (run_dump_failed w result Hm Hd Hrc) as [_ Hev].
  rewrite Hev. autorewrite with calls. reflexivity.
Qed.

Lemma calls_dump_raises w e :
  missing_vars (os_environ w) = [] ->
  dump_outcome w = inl e ->
  calls (events w)
  = Run (pg_dump_command (os_environ w) (run_local_path w))
      (child_env (os_environ w)) 3600
    :: failure_call w
    :: notify_calls w (handler_subject w e) (handler_message w e).
Proof.
  intros Hm Hd. destruct (run_dump_raises w e Hm Hd) as [_ Hev].
  rewrite Hev. autorewrite with calls. reflexivity.
Qed.

(** C3, as stated, fails: without a notification topic a failed dump
    publishes no notification. *)
Lemma dump_failure_notification_counterexample :
  ~ (forall (w : World) (result : CompletedProcess),
        missing_vars (os_environ w) = [] ->
        dump_outcome w = inr result ->
        returncode result <> 0%Z ->
        count is_publish (events w) = 1%nat).
Proof.
  intros H.
  specialize (H (sample_world quiet_environ dump_error None (inr 0%N) None)
                {| returncode := 1; stdout := "";
                   stderr := "pg_dump: error: connection failed" |}).
  assert (E : count is_publish
                (events (sample_world quiet_environ dump_error None (inr 0%N) None))
              = 0%nat) by (vm_compute; reflexivity).
  rewrite E in H. discriminate H.
  - vm_compute. reflexivity.
  - reflexivity.
  - discriminate.
Qed.

(** C3, amended. With every required value present: when [pg_dump], started
    with a bound of 3600 seconds, returns a non-zero status, the error
    [pg_dump 失败: <stderr>] is logged and the failure message contains that
    diagnostic output; when it exceeds the bound, the time-out error is
    logged.  In both cases the exit status is 1, nothing is uploaded, exactly
    one [BackupFailure] metric and no other metric is published, and exactly
    one failure notification is published when a notification topic is
    configured, none otherwise. *)
Theorem dump_failure_aborts (w : World) :
  missing_vars (os_environ w) = [] ->
  (forall result : CompletedProcess,
      dump_outcome w = inr result ->
      returncode result <> 0%Z ->
      exit_code w = 1%Z
      /\ In (Log ERROR ("pg_dump 失败: " +:+ stderr result)) (events w)
      /\ calls (events w)
         = Run (pg_dump_command (os_environ w) (run_local_path w))
             (child_env (os_environ w)) 3600
           :: failure_call w
           :: notify_calls w (dump_failed_subject w) (dump_failed_message w result)
      /\ Py.substring_of (stderr result) (dump_failed_message w result)
      /\ count is_upload (events w) = 0%nat
      /\ count (is_metric "BackupFailure") (events w) = 1%nat
      /\ count is_put_metric (events w) = 1%nat
      /\ count is_publish (events w)
         = (if Py.truthy (SNS_TOPIC_ARN (os_environ w)) then 1%nat else 0%nat))
  /\ (forall e : exn,
         dump_outcome w = inl e ->
         exn_cls e = TimeoutExpired ->
         exit_code w = 1%Z
         /\ In (Log ERROR "备份超时（超过 1 小时）") (events w)
         /\ calls (events w)
            = Run (pg_dump_command (os_environ w) (run_local_path w))
                (child_env (os_environ w)) 3600
              :: failure_call w
              :: notify_calls w
                   ("RDS 备份超时 - " +:+ Py.str (RDS_DB_NAME (os_environ w)))
                   ("备份超时于 " +:+ strftime "%Y-%m-%d-%H%M%S" (utcnow w 2)
                    +:+ nl +:+ nl +:+ "备份超时（超过 1 小时）")
         /\ count is_upload (events w) = 0%nat
         /\ count (is_metric "BackupFailure") (events w) = 1%nat
         /\ count is_put_metric (events w) = 1%nat
         /\ count is_publish (events w)
            = (if Py.truthy (SNS_TOPIC_ARN (os_environ w)) then 1%nat else 0%nat)).
Proof.
  intros Hm. split.
  - intros result Hd Hrc.
    destruct (run_dump_failed w result Hm Hd Hrc) as [Hexit Hev].
    pose proof (calls_dump_failed w result Hm Hd Hrc) as Hcalls.
    split; [exact Hexit|].
    split; [rewrite Hev; apply in_or_app; right; now left|].
    split; [exact Hcalls|].
    split.
    { unfold dump_failed_message. do 5 apply substring_skip.
      rewrite append_assoc. apply substring_skip, substring_here. }
    repeat split; count_by_calls Hcalls.
  - intros e Hd Hcls.
    destruct (run_dump_raises w e Hm Hd) as [Hexit Hev].
    pose proof (calls_dump_raises w e Hm Hd) as Hcalls.
    unfold handler_subject, handler_message in Hcalls. rewrite Hcls in Hcalls.
    split; [exact Hexit|].
    split.
    { rewrite Hev. apply in_or_app. right. left.
      unfold handler_error. now rewrite Hcls. }
    split; [exact Hcalls|].
    repeat split; count_by_calls Hcalls.
Qed.

(** A run in which [pg_dump] returns 1, and one in which it times out. *)
Lemma dump_failure_aborts_witness :
  exit_code (sample_world sample_environ dump_error None (inr 0%N) None) = 1%Z
  /\ exit_code (sample_world sample_environ dump_timeout None (inr 0%N) None) = 1%Z.
Proof.
  split.
  - destruct (dump_failure_aborts
                (sample_world sample_environ dump_error None (inr 0%N) None))
      as [Hfail _].
    + vm_compute. reflexivity.
    + destruct (Hfail {| returncode := 1; stdout := "";
                         stderr := "pg_dump: error: connection failed" |})
        as [Hexit _].
      * reflexivity.
      * discriminate.
      * exact Hexit.
  - destruct (dump_failure_aborts
                (sample_world sample_environ dump_timeout None (inr 0%N) None))
      as [_ Htime].
    + vm_compute. reflexivity.
    + destruct (Htime (Exn TimeoutExpired
                         "Command 'pg_dump' timed out after 3600 seconds"))
        as [Hexit _].
      * reflexivity.
      * reflexivity.
      * exact Hexit.
Defined.

(** ** Failure of the upload *)

Lemma calls_upload_failed w result e :
  missing_vars (os_environ w) = [] ->
  dump_outcome w = inr result ->
  returncode result = 0%Z ->
  upload_outcome w = Some e ->
  calls (events w)
  = Run (pg_dump_command (os_environ w) (run_local_path w))
      (child_env (os_environ w)) 3600
    :: UploadFile (run_local_path w) (S3_BUCKET (os_environ w)) (run_s3_key w)
    :: failure_call w
    :: notify_calls w (upload_failed_subject w) (upload_failed_message w).
Proof.
  intros Hm Hd Hrc Hu.
  destruct (run_upload_failed w result e Hm Hd Hrc Hu) as [_ Hev].
  rewrite Hev. autorewrite with calls. reflexivity.
Qed.

(** [upload_to_s3] logs the failure of the transfer as an error. *)
Lemma upload_error_logged w result e :
  missing_vars (os_environ w) = [] ->
  dump_outcome w = inr result ->
  returncode result = 0%Z ->
  upload_outcome w = Some e ->
  exists detail, In (Log ERROR ("上传到 S3 失败: " +:+ detail)) (events w).
Proof.
  intros Hm Hd Hrc Hu.
  destruct (run_upload_failed w result e Hm Hd Hrc Hu) as [_ Hev].
  exists (match exn_cls e with
          | NoCredentialsError =>
              "未找到 AWS 凭证（在 ECS 中应使用 IAM 角色，本地运行需要配置 AWS 凭证）"
          | _ => exn_str e
          end).
  rewrite Hev. apply in_or_app. right. apply in_or_app. left.
  unfold upload_step_events. apply in_or_app. right.
  unfold upload_events. unfold upload_outcome in Hu. rewrite Hu.
  right. destruct (exn_cls e); now left.
Qed.

(** C4, as stated, fails: without a notification topic a failed upload
    publishes no notification. *)
Lemma upload_failure_notification_counterexample :
  ~ (forall (w : World) (result : CompletedProcess) (e : exn),
        missing_vars (os_environ w) = [] ->
        dump_outcome w = inr result ->
        returncode result = 0%Z ->
        upload_outcome w = Some e ->
        count is_publish (events w) = 1%nat).
Proof.
  intros H.
  specialize (H (sample_world quiet_environ dump_ok (Some access_denied)
                   (inr 1048576%N) None)
                {| returncode := 0; stdout := ""; stderr := "" |} access_denied).
  assert (E : count is_publish
                (events (sample_world quiet_environ dump_ok (Some access_denied)
                           (inr 1048576%N) None))
              = 0%nat) by (vm_compute; reflexivity).
  rewrite E in H. discriminate H.
  - vm_compute. reflexivity.
  - reflexivity.
  - reflexivity.
  - reflexivity.
Qed.

(** C4, amended. When the dump succeeds and the upload fails, the upload
    error is logged and the exit status is 1; exactly one [BackupFailure]
    metric and no other metric is published; the local artifact is neither measured nor removed; and
    exactly one failure notification is published when a notification topic
    is configured, none otherwise.  Its subject is not the one of a failed
    dump and its text says that the backup file was produced but the S3
    upload failed. *)
Theorem upload_failure_keeps_artifact
    (w : World) (result : CompletedProcess) (e : exn) :
  missing_vars (os_environ w) = [] ->
  dump_outcome w = inr result ->
  returncode result = 0%Z ->
  upload_outcome w = Some e ->
  exit_code w = 1%Z
  /\ calls (events w)
     = Run (pg_dump_command (os_environ w) (run_local_path w))
         (child_env (os_environ w)) 3600
       :: UploadFile (run_local_path w) (S3_BUCKET (os_environ w)) (run_s3_key w)
       :: failure_call w
       :: notify_calls w
            ("RDS 备份上传失败 - " +:+ Py.str (RDS_DB_NAME (os_environ w)))
            ("备份文件生成成功，但 S3 上传失败于 " +:+ run_timestamp w +:+ nl +:+ nl
             +:+ "S3 Key: " +:+ run_s3_key w)
  /\ upload_failed_subject w <> dump_failed_subject w
  /\ count (is_metric "BackupFailure") (events w) = 1%nat
  /\ count is_put_metric (events w) = 1%nat
  /\ count is_publish (events w)
     = (if Py.truthy (SNS_TOPIC_ARN (os_environ w)) then 1%nat else 0%nat)
  /\ count is_remove (events w) = 0%nat
  /\ count is_getsize (events w) = 0%nat
  /\ exists detail, In (Log ERROR ("上传到 S3 失败: " +:+ detail)) (events w).
Proof.
  intros Hm Hd Hrc Hu.
  pose proof (upload_error_logged w result e Hm Hd Hrc Hu) as Hlog.
  destruct (run_upload_failed w result e Hm Hd Hrc Hu) as [Hexit _].
  pose proof (calls_upload_failed w result e Hm Hd Hrc Hu) as Hcalls.
  split; [exact Hexit|]. split; [exact Hcalls|].
  split.
  { unfold upload_failed_subject, dump_failed_subject. intros E.
    apply (f_equal (fun s => String.get 10 s)) in E. discriminate E. }
  repeat split; try exact Hlog; count_by_calls Hcalls.
Qed.

(** A run in which the upload is denied. *)
Lemma upload_failure_keeps_artifact_witness :
  exit_code (sample_world sample_environ dump_ok (Some access_denied)
               (inr 1048576%N) None) = 1%Z
  /\ count is_remove
       (events (sample_world sample_environ dump_ok (Some access_denied)
                  (inr 1048576%N) None)) = 0%nat.
Proof.
  destruct (upload_failure_keeps_artifact
              (sample_world sample_environ dump_ok (Some access_denied)
                 (inr 1048576%N) None)
              {| returncode := 0; stdout := ""; stderr := "" |} access_denied)
    as (Hexit & _ & _ & _ & _ & _ & Hrm & _).
  - vm_compute. reflexivity.
  - reflexivity.
  - reflexivity.
  - reflexivity.
  - split; [exact Hexit | exact Hrm].
Defined.

(** ** Cleanup of the local artifact *)

(** C5, as stated, fails: after a failed upload the local artifact is not
    removed. *)
Lemma cleanup_after_failed_upload_counterexample :
  ~ (forall (w : World) (result : CompletedProcess),
        missing_vars (os_environ w) = [] ->
        dump_outcome w = inr result ->
        returncode result = 0%Z ->
        count is_upload (events w) = 1%nat ->
        count is_remove (events w) = 1%nat).
Proof.
  intros H.
  specialize (H (sample_world sample_environ dump_ok (Some access_denied)
                   (inr 1048576%N) None)
                {| returncode := 0; stdout := ""; stderr := "" |}).
  assert (E : count is_remove
                (events (sample_world sample_environ dump_ok (Some access_denied)
                           (inr 1048576%N) None))
              = 0%nat) by (vm_compute; reflexivity).
  rewrite E in H. discriminate H.
  - vm_compute. reflexivity.
  - reflexivity.
  - reflexivity.
  - vm_compute. reflexivity.
Qed.

(** C5, amended. In a run in which the upload succeeds and the size of the
    artifact is read, the local artifact is removed exactly once, after the
    upload and the publications; when the removal fails the failure is
    logged as a warning; and whatever the removal answers, the exit status is
    0 and the calls of the run are the same. *)
Theorem cleanup_after_upload
    (w : World) (result : CompletedProcess) (file_size : N) :
  missing_vars (os_environ w) = [] ->
  dump_outcome w = inr result ->
  returncode result = 0%Z ->
  upload_outcome w = None ->
  size_outcome w = inr file_size ->
  exit_code w = 0%Z
  /\ List.filter is_remove (events w) = [Remove (run_local_path w)]
  /\ calls (events w)
     = [ Run (pg_dump_command (os_environ w) (run_local_path w))
           (child_env (os_environ w)) 3600;
         UploadFile (run_local_path w) (S3_BUCKET (os_environ w)) (run_s3_key w);
         GetSize (run_local_path w);
         metric_call w "BackupSuccess" (Int 1) "Count" "Success";
         metric_call w "BackupSize" (Float (file_size_mb file_size))
           "Megabytes" "Success" ]
       ++ notify_calls w (success_subject w)
            (success_message (os_environ w) (run_timestamp w) (run_s3_key w)
               (file_size_mb file_size))
       ++ [Remove (run_local_path w)]
  /\ (forall e, remove_outcome w = Some e ->
                In (Log WARNING ("清理本地文件失败: " +:+ exn_str e)) (events w))
  /\ (forall remove : string -> option exn,
         exit_code (with_remove w remove) = 0%Z
         /\ calls (events (with_remove w remove)) = calls (events w)).
Proof.
  intros Hm Hd Hrc Hu Hs.
  destruct (run_success w result file_size Hm Hd Hrc Hu Hs) as [Hexit Hev].
  pose proof (calls_success w result file_size Hm Hd Hrc Hu Hs) as Hcalls.
  split; [exact Hexit|].
  split.
  { rewrite filter_calls by reflexivity. rewrite Hcalls.
    unfold notify_calls. destruct (Py.truthy _); reflexivity. }
  split; [exact Hcalls|].
  split.
  { intros e He. rewrite Hev.
    do 3 (apply in_or_app; right). unfold success_events.
    do 4 (apply in_or_app; right). apply in_or_app. left.
    unfold cleanup_events. rewrite He. right. now left. }
  intros remove.
  destruct (run_success (with_remove w remove) result file_size Hm Hd Hrc Hu Hs)
    as [Hexit' _].
  split; [exact Hexit'|].
  rewrite Hcalls.
  exact (calls_success (with_remove w remove) result file_size Hm Hd Hrc Hu Hs).
Qed.

(** A successful run in which [os.remove] fails. *)
Lemma cleanup_after_upload_witness :
  exit_code (sample_world sample_environ dump_ok None (inr 1048576%N)
               (Some (Exn OtherException "[Errno 13] Permission denied"))) = 0%Z
  /\ In (Log WARNING ("清理本地文件失败: " +:+ "[Errno 13] Permission denied"))
        (events (sample_world sample_environ dump_ok None (inr 1048576%N)
                   (Some (Exn OtherException "[Errno 13] Permission denied")))).
Proof.
  destruct (cleanup_after_upload
              (sample_world sample_environ dump_ok None (inr 1048576%N)
                 (Some (Exn OtherException "[Errno 13] Permission denied")))
              {| returncode := 0; stdout := ""; stderr := "" |} 1048576%N)
    as (Hexit & _ & _ & Hlog & _).
  - vm_compute. reflexivity.
  - reflexivity.
  - reflexivity.
  - reflexivity.
  - reflexivity.
  - split; [exact Hexit|].
    exact (Hlog (Exn OtherException "[Errno 13] Permission denied") eq_refl).
Defined.

(** ** Every run follows the decision tree *)

Lemma calls_size_raises w result e :
  missing_vars (os_environ w) = [] ->
  dump_outcome w = inr result ->
  returncode result = 0%Z ->
  upload_outcome w = None ->
  size_outcome w = inl e ->
  calls (events w)
  = Run (pg_dump_command (os_environ w) (run_local_path w))
      (child_env (os_environ w)) 3600
    :: UploadFile (run_local_path w) (S3_BUCKET (os_environ w)) (run_s3_key w)
    :: GetSize (run_local_path w)
    :: failure_call w
    :: notify_calls w (handler_subject w e) (handler_message w e).
Proof.
  intros Hm Hd Hrc Hu Hs.
  destruct (run_size_raises w result e Hm Hd Hrc Hu Hs) as [_ Hev].
  rewrite Hev. autorewrite with calls. reflexivity.
Qed.

Lemma run_summary (w : World) :
  exit_code w = expected_exit_code w /\ calls (events w) = expected_calls w.
Proof.
  unfold expected_exit_code, expected_calls.
  destruct (decide (missing_vars (os_environ w) = [])) as [Hm|Hm].
  - rewrite (bool_decide_eq_true_2 _ Hm).
    destruct (dump_outcome w) as [e|result] eqn:Hd.
    { split; [apply (run_dump_raises w e Hm Hd) | apply (calls_dump_raises w e Hm Hd)]. }
    destruct (Z.eqb_spec (returncode result) 0) as [Hrc|Hrc].
    2:{ split; [apply (run_dump_failed w result Hm Hd Hrc)
               | apply (calls_dump_failed w result Hm Hd Hrc)]. }
    destruct (upload_outcome w) as [e|] eqn:Hu.
    { split; [apply (run_upload_failed w result e Hm Hd Hrc Hu)
             | apply (calls_upload_failed w result e Hm Hd Hrc Hu)]. }
    destruct (size_outcome w) as [e|file_size] eqn:Hs.
    { split; [apply (run_size_raises w result e Hm Hd Hrc Hu Hs)
             | apply (calls_size_raises w result e Hm Hd Hrc Hu Hs)]. }
    split; [apply (run_success w result file_size Hm Hd Hrc Hu Hs)
           | apply (calls_success w result file_size Hm Hd Hrc Hu Hs)].
  - rewrite (bool_decide_eq_false_2 _ Hm).
    destruct (run_config_invalid w Hm) as [Hexit Hev].
    split; [exact Hexit|]. rewrite Hev. apply calls_config_invalid_events.
Qed.

(** ** Metrics and notifications *)

(** C6. [send_cloudwatch_metric] and [send_sns_notification] end normally
    whatever the transport answers, a raised [NoCredentialsError] included;
    without a notification topic [send_sns_notification] does nothing; and
    replacing the two transports by any others changes neither the exit
    status of the run nor the calls it makes. *)
Theorem observability_never_raises :
  (forall (w : World) metric_name value unit_ status (st : state),
      fst (send_cloudwatch_metric w metric_name value unit_ status st) = Normal tt)
  /\ (forall (w : World) subject message (st : state),
         fst (send_sns_notification w subject message st) = Normal tt)
  /\ (forall (w : World) subject message (st : state),
         SNS_TOPIC_ARN (os_environ w) = "" ->
         send_sns_notification w subject message st = (Normal tt, st))
  /\ (forall (w : World) put publish,
         exit_code (with_observability w put publish) = exit_code w
         /\ calls (events (with_observability w put publish)) = calls (events w)).
Proof.
  split; [intros; now rewrite send_cloudwatch_metric_run|].
  split; [intros; now rewrite send_sns_notification_run|].
  split.
  - intros w subject message st Htopic.
    unfold send_sns_notification. now rewrite Htopic.
  - intros w put publish.
    destruct (run_summary w) as [-> ->].
    destruct (run_summary (with_observability w put publish)) as [-> ->].
    split; reflexivity.
Qed.

(** A notification without a topic. *)
Lemma observability_never_raises_witness :
  send_sns_notification
    (sample_world quiet_environ dump_ok None (inr 1048576%N) None)
    "RDS 备份成功 - app" "RDS 备份成功完成" init
  = (Normal tt, init).
Proof.
  destruct observability_never_raises as (_ & _ & Hnoop & _).
  apply (Hnoop (sample_world quiet_environ dump_ok None (inr 1048576%N) None)).
  vm_compute. reflexivity.
Defined.

(** ** The password of the database *)

Lemma missing_vars_nil_iff (env : gmap string string) :
  missing_vars env = []
  <-> Py.truthy_opt (RDS_HOST env) = true
      /\ Py.truthy_opt (RDS_DB_NAME env) = true
      /\ Py.truthy_opt (RDS_USERNAME env) = true
      /\ Py.truthy_opt (RDS_PASSWORD env) = true
      /\ Py.truthy (S3_BUCKET env) = true.
Proof.
  split.
  - intros Hm. repeat split.
    + apply (valid_truthy env "RDS_HOST" _ Hm). now left.
    + apply (valid_truthy env "RDS_DB_NAME" _ Hm). right. now left.
    + apply (valid_truthy env "RDS_USERNAME" _ Hm). do 2 right. now left.
    + apply (valid_truthy env "RDS_PASSWORD" _ Hm). do 3 right. now left.
    + apply (valid_truthy env "S3_BUCKET" (Some (S3_BUCKET env)) Hm).
      do 4 right. now left.
  - intros (Hh & Hd & Hu & Hp & Hb).
    unfold missing_vars, required_vars.
    cbn [List.filter snd Py.truthy_opt]. rewrite Hh, Hd, Hu, Hp, Hb. reflexivity.
Qed.

Lemma missing_vars_with_password (env : gmap string string) other :
  missing_vars env = [] ->
  other <> "" ->
  missing_vars (<["RDS_PASSWORD" := other]> env) = [].
Proof.
  intros Hm Hne. apply missing_vars_nil_iff in Hm as (Hh & Hd & Hu & _ & Hb).
  apply missing_vars_nil_iff.
  unfold RDS_HOST, RDS_DB_NAME, RDS_USERNAME, RDS_PASSWORD, S3_BUCKET, S3_BUCKET_RAW
    in *.
  rewrite lookup_insert_eq, !lookup_insert_ne by discriminate.
  repeat split; try assumption. now apply truthy_true.
Qed.

(** The argument list of [pg_dump] does not depend on [RDS_PASSWORD]. *)
Lemma pg_dump_command_with_password w other :
  pg_dump_command (os_environ (with_password w other))
    (run_local_path (with_password w other))
  = pg_dump_command (os_environ w) (run_local_path w).
Proof.
  unfold pg_dump_command, run_local_path, run_filename, run_timestamp,
    with_password, with_environ, RDS_HOST, RDS_PORT, RDS_USERNAME, RDS_DB_NAME.
  cbn [os_environ utcnow].
  rewrite !lookup_insert_ne by discriminate. reflexivity.
Qed.

Lemma filter_run_expected_calls w :
  missing_vars (os_environ w) = [] ->
  List.filter is_run (expected_calls w)
  = [Run (pg_dump_command (os_environ w) (run_local_path w))
       (child_env (os_environ w)) 3600].
Proof.
  intros Hm. unfold expected_calls. rewrite (bool_decide_eq_true_2 _ Hm).
  cbn [List.filter is_run]. f_equal.
  destruct (dump_outcome w) as [e|result];
    [|destruct (returncode result =? 0)%Z;
      [destruct (upload_outcome w); [|destruct (size_outcome w)]|]];
    unfold notify_calls; destruct (Py.truthy _); reflexivity.
Qed.

Lemma dump_tool_call w :
  missing_vars (os_environ w) = [] ->
  List.filter is_run (events w)
  = [Run (pg_dump_command (os_environ w) (run_local_path w))
       (child_env (os_environ w)) 3600].
Proof.
  intros Hm. rewrite filter_calls by reflexivity.
  destruct (run_summary w) as [_ ->]. now apply filter_run_expected_calls.
Qed.

(** C9. In every run that starts the dump tool, the tool is started once,
    with [PGPASSWORD] set to the database password in its environment, and
    with an argument list that is the same whatever the password is: the
    run with any other password hands the child the same arguments and the
    other password in [PGPASSWORD]. *)
Theorem password_only_in_child_environment (w : World) :
  missing_vars (os_environ w) = [] ->
  exists password,
    RDS_PASSWORD (os_environ w) = Some password
    /\ password <> ""
    /\ List.filter is_run (events w)
       = [Run (pg_dump_command (os_environ w) (run_local_path w))
            (child_env (os_environ w)) 3600]
    /\ child_env (os_environ w) !! "PGPASSWORD" = Some (Some password)
    /\ forall other : string,
         other <> "" ->
         List.filter is_run (events (with_password w other))
         = [Run (pg_dump_command (os_environ w) (run_local_path w))
              (child_env (os_environ (with_password w other))) 3600]
         /\ child_env (os_environ (with_password w other)) !! "PGPASSWORD"
            = Some (Some other).
Proof.
  intros Hm.
  destruct (valid_config_values _ Hm) as (_ & _ & _ & pw & _ & _ & _ & (Hp & Hne) & _).
  exists pw. split; [exact Hp|]. split; [exact Hne|].
  split; [now apply dump_tool_call|].
  split; [unfold child_env; rewrite lookup_insert_eq; now rewrite Hp|].
  intros other Hother. split.
  - rewrite dump_tool_call
      by (apply (missing_vars_with_password _ other Hm Hother)).
    now rewrite pg_dump_command_with_password.
  - unfold child_env, RDS_PASSWORD, with_password, with_environ.
    cbn [os_environ]. now rewrite !lookup_insert_eq.
Qed.

(** The sample run, and the same run with the password ["hunter2"]. *)
Lemma password_only_in_child_environment_witness :
  exists password,
    RDS_PASSWORD sample_environ = Some password
    /\ child_env sample_environ !! "PGPASSWORD" = Some (Some password)
    /\ child_env (<["RDS_PASSWORD" := "hunter2"]> sample_environ) !! "PGPASSWORD"
       = Some (Some "hunter2").
Proof.
  destruct (password_only_in_child_environment
              (sample_world sample_environ dump_ok None (inr 1048576%N) None))
    as (pw & Hp & _ & _ & Henv & Hother).
  - vm_compute. reflexivity.
  - exists pw. split; [exact Hp|]. split; [exact Henv|].
    destruct (Hother "hunter2") as [_ Hchild].
    + discriminate.
    + exact Hchild.
Defined.

(** ** The remote key *)

(** With one reading [t] of the clock the key has the documented shape. *)
Lemma s3_key_single_reading (prefix db : string) (t : datetime) :
  let Y := zfill 4 (pretty (year t)) in
  let m := zfill 2 (pretty (month t)) in
  let d := zfill 2 (pretty (day t)) in
  let H := zfill 2 (pretty (hour t)) in
  let M := zfill 2 (pretty (minute t)) in
  let S := zfill 2 (pretty (second t)) in
  s3_key prefix (strftime "%Y/%m/%d" t)
    (backup_filename (Some db) (strftime "%Y-%m-%d-%H%M%S" t))
  = (if Py.truthy prefix then prefix else "backups/")
    +:+ Y +:+ "/" +:+ m +:+ "/" +:+ d
    +:+ "/backup-" +:+ db +:+ "-"
    +:+ Y +:+ "-" +:+ m +:+ "-" +:+ d +:+ "-" +:+ H +:+ M +:+ S +:+ ".dump".
Proof.
  intros Y m d H M S. unfold s3_key, backup_filename.
  rewrite strftime_date_path, strftime_timestamp. cbn [Py.str].
  fold Y m d H M S.
  destruct (Py.truthy prefix); rewrite !append_assoc; reflexivity.
Qed.

(** The key of a run is built from the first two readings of the clock:
    the time stamp from the first, the date path from the second. *)
Lemma run_s3_key_readings (w : World) :
  run_s3_key w
  = s3_key (S3_PREFIX (os_environ w)) (strftime "%Y/%m/%d" (utcnow w 1))
      (backup_filename (RDS_DB_NAME (os_environ w))
         (strftime "%Y-%m-%d-%H%M%S" (utcnow w 0))).
Proof. reflexivity. Qed.

(** C8. A run that reads the clock at 2024-01-01 23:59:59 and then at
    2024-01-02 00:00:00 uploads under the date path of the second reading
    and the time stamp of the first; with the same database name, prefix and
    first reading, a run whose clock stands still uploads under another key. *)
Theorem key_straddles_midnight :
  run_s3_key midnight_world = "backups/2024/01/02/backup-app-2024-01-01-235959.dump"
  /\ In (UploadFile "/tmp/backup-app-2024-01-01-235959.dump" "mybucket"
           "backups/2024/01/02/backup-app-2024-01-01-235959.dump")
        (events midnight_world)
  /\ exit_code midnight_world = 0%Z
  /\ os_environ before_midnight_world = os_environ midnight_world
  /\ utcnow before_midnight_world 0 = utcnow midnight_world 0
  /\ run_s3_key before_midnight_world
     = "backups/2024/01/01/backup-app-2024-01-01-235959.dump".
Proof.
  split; [vm_compute; reflexivity|].
  split; [vm_compute; tauto|].
  repeat split; vm_compute; reflexivity.
Qed.

(** * Further properties of the script *)

(** ** Region *)

(** X1. The region is [AWS_REGION] when that is set to a non-empty value,
    else [AWS_DEFAULT_REGION] when that is set to a non-empty value, else
    ["ap-northeast-1"]; an empty value counts as unset, and the region is
    never empty. *)
Theorem region_resolution (env : gmap string string) :
  (forall r, env !! "AWS_REGION" = Some r -> r <> "" -> AWS_REGION env = Some r)
  /\ (forall r,
         Py.truthy_opt (env !! "AWS_REGION") = false ->
         env !! "AWS_DEFAULT_REGION" = Some r -> r <> "" ->
         AWS_REGION env = Some r)
  /\ (Py.truthy_opt (env !! "AWS_REGION") = false ->
      Py.truthy_opt (env !! "AWS_DEFAULT_REGION") = false ->
      AWS_REGION env = Some "ap-northeast-1")
  /\ exists r, AWS_REGION env = Some r /\ r <> "".
Proof.
  unfold AWS_REGION, Py.or_else. repeat split.
  - intros r -> Hr. apply truthy_true in Hr. cbn [Py.truthy_opt]. now rewrite Hr.
  - intros r -> -> Hr. apply truthy_true in Hr. cbn [Py.truthy_opt]. now rewrite Hr.
  - intros -> ->. reflexivity.
  - destruct (env !! "AWS_REGION") as [a|] eqn:Ha; cbn [Py.truthy_opt].
    + destruct (Py.truthy a) eqn:Hta.
      * exists a. split; [reflexivity | now apply truthy_true].
      * destruct (env !! "AWS_DEFAULT_REGION") as [d|]; cbn [Py.truthy_opt].
        -- destruct (Py.truthy d) eqn:Htd.
           ++ exists d. split; [reflexivity | now apply truthy_true].
           ++ exists "ap-northeast-1". split; [reflexivity | discriminate].
        -- exists "ap-northeast-1". split; [reflexivity | discriminate].
    + destruct (env !! "AWS_DEFAULT_REGION") as [d|]; cbn [Py.truthy_opt].
      * destruct (Py.truthy d) eqn:Htd.
        -- exists d. split; [reflexivity | now apply truthy_true].
        -- exists "ap-northeast-1". split; [reflexivity | discriminate].
      * exists "ap-northeast-1". split; [reflexivity | discriminate].
Qed.

(** An empty [AWS_REGION] gives way to [AWS_DEFAULT_REGION]. *)
Lemma region_resolution_witness :
  AWS_REGION (<["AWS_REGION" := ""]> (<["AWS_DEFAULT_REGION" := "eu-west-1"]> ∅))
  = Some "eu-west-1"
  /\ AWS_REGION (<["AWS_REGION" := "us-east-1"]> ∅) = Some "us-east-1"
  /\ AWS_REGION (<["AWS_REGION" := ""]> ∅) = Some "ap-northeast-1".
Proof.
  split; [|split].
  - destruct (region_resolution
                (<["AWS_REGION" := ""]> (<["AWS_DEFAULT_REGION" := "eu-west-1"]> ∅)))
      as (_ & Hdef & _).
    apply Hdef; [vm_compute; reflexivity | vm_compute; reflexivity | discriminate].
  - destruct (region_resolution (<["AWS_REGION" := "us-east-1"]> ∅)) as (Hset & _).
    apply Hset; [vm_compute; reflexivity | discriminate].
  - destruct (region_resolution (<["AWS_REGION" := ""]> ∅)) as (_ & _ & Hnone & _).
    apply Hnone; vm_compute; reflexivity.
Defined.

(** ** The list of missing settings *)

Lemma sublist_map_filter {A B} (f : A -> B) (p : A -> bool) (l : list A) :
  sublist (map f (List.filter p l)) (map f l).
Proof.
  induction l as [|x l IH]; cbn [List.filter map]; [constructor|].
  destruct (p x); cbn [map]; now constructor.
Qed.

Lemma bucket_empty_iff (raw : string) :
  fst (parse_bucket raw) = "" <-> raw = "" \/ exists rest, raw = String "/" rest.
Proof.
  split.
  - intros Hb. destruct raw as [|a raw']; [now left|]. right.
    destruct (Py.contains "/"%char (String a raw')) eqn:Hc.
    + destruct (parse_bucket_slash _ Hc) as (b & r & Hraw & _ & Hp).
      rewrite Hp in Hb. cbn [fst] in Hb. subst b. exists r. exact Hraw.
    + rewrite (parse_bucket_no_slash _ Hc) in Hb. discriminate Hb.
  - intros [->|[rest ->]]; [reflexivity | apply parse_bucket_leading_slash].
Qed.

(** X2. The keys reported missing are taken from the five required keys,
    in their order and each at most once; one of the four plain keys is
    reported exactly when it has no value or the empty value, and
    [S3_BUCKET] exactly when the bucket name parsed from it is empty, that
    is when the setting is absent, empty or starts with ['/'].  No other
    setting, [RDS_PORT] included, is ever reported. *)
Theorem missing_vars_characterisation (env : gmap string string) :
  sublist (missing_vars env) required_keys
  /\ NoDup (missing_vars env)
  /\ (forall k, In k plain_required_keys ->
                (In k (missing_vars env) <-> env !! k = None \/ env !! k = Some ""))
  /\ (In "S3_BUCKET" (missing_vars env)
      <-> env !! "S3_BUCKET" = None
          \/ env !! "S3_BUCKET" = Some ""
          \/ exists rest, env !! "S3_BUCKET" = Some (String "/" rest))
  /\ (forall k, In k (missing_vars env) -> In k required_keys).
Proof.
  assert (Hsub : sublist (missing_vars env) required_keys).
  { unfold missing_vars. rewrite <- (required_vars_keys env).
    apply sublist_map_filter. }
  split; [exact Hsub|].
  split.
  { apply (sublist_NoDup _ required_keys); [|exact Hsub].
    unfold required_keys.
    repeat (apply NoDup_cons; split;
            [rewrite list_elem_of_In; cbn; intros H;
             repeat (destruct H as [H|H]; [discriminate H|]); exact H|]).
    apply NoDup_nil_2. }
  split.
  { intros k Hk. split.
    - intros Hin. apply missing_vars_In in Hin as (v & Hv & Hf).
      apply truthy_opt_false.
      unfold plain_required_keys in Hk. unfold required_vars in Hv.
      destruct Hk as [<-|[<-|[<-|[<-|[]]]]];
        destruct Hv as [E|[E|[E|[E|[E|[]]]]]]; try discriminate E;
        injection E as <-; exact Hf.
    - intros Hv. apply falsy_is_missing; [|exact Hv].
      unfold plain_required_keys in Hk. unfold required_keys.
      destruct Hk as [<-|[<-|[<-|[<-|[]]]]]; cbn; tauto. }
  split.
  { rewrite missing_vars_In. unfold required_vars. split.
    - intros (v & Hv & Hf).
      destruct Hv as [E|[E|[E|[E|[E|[]]]]]]; try discriminate E.
      injection E as <-. cbn [Py.truthy_opt] in Hf. apply truthy_false in Hf.
      unfold S3_BUCKET, S3_BUCKET_RAW in Hf. apply bucket_empty_iff in Hf.
      destruct (env !! "S3_BUCKET") as [raw|]; [|now left]. cbn [default id] in Hf.
      destruct Hf as [->|[rest ->]]; [right; now left|]. right. right. now exists rest.
    - intros Hv. exists (Some (S3_BUCKET env)). split; [do 4 right; now left|].
      cbn [Py.truthy_opt]. apply truthy_false. unfold S3_BUCKET, S3_BUCKET_RAW.
      apply bucket_empty_iff.
      destruct Hv as [->|[->|[rest ->]]]; cbn [default id]; [now left | now left|].
      right. now exists rest. }
  intros k Hin. apply list_elem_of_In. apply list_elem_of_In in Hin.
  exact (elem_of_sublist _ _ _ Hin Hsub).
Qed.

(** An environment without password and with the bucket setting ["/foo"]. *)
Lemma missing_vars_characterisation_witness :
  In "RDS_PASSWORD"
     (missing_vars (<["S3_BUCKET" := "/foo"]> (delete "RDS_PASSWORD" sample_environ)))
  /\ In "S3_BUCKET"
       (missing_vars (<["S3_BUCKET" := "/foo"]> (delete "RDS_PASSWORD" sample_environ))).
Proof.
  destruct (missing_vars_characterisation
              (<["S3_BUCKET" := "/foo"]> (delete "RDS_PASSWORD" sample_environ)))
    as (_ & _ & Hplain & Hbucket & _).
  split.
  - apply Hplain; [vm_compute; tauto | left; vm_compute; reflexivity].
  - apply Hbucket. right. right. exists "foo". vm_compute. reflexivity.
Defined.

(** ** The shape of bucket and prefix *)

Lemma contains_append (c : ascii) (b a : string) :
  Py.contains c (b +:+ String c a) = true.
Proof.
  induction b as [|x b IH]; cbn [Py.contains].
  - change ("" +:+ String c a) with (String c a). cbn [Py.contains].
    now rewrite Ascii.eqb_refl.
  - change (String x b +:+ String c a) with (String x (b +:+ String c a)).
    cbn [Py.contains]. rewrite IH. now destruct (Ascii.eqb x c).
Qed.

Lemma split_append (c : ascii) (b a : string) :
  Py.contains c b = false -> Py.split c 1 (b +:+ String c a) = [b; a].
Proof.
  intros Hb.
  destruct (split_first c _ (contains_append c b a)) as (b' & a' & Heq & Hb' & ->).
  revert b' Heq Hb'. induction b as [|x b IH]; intros b' Heq Hb'.
  - change ("" +:+ String c a) with (String c a) in Heq.
    destruct b' as [|y b'].
    + change ("" +:+ String c a') with (String c a') in Heq. now injection Heq as ->.
    + change (String y b' +:+ String c a') with (String y (b' +:+ String c a')) in Heq.
      injection Heq as <- _. cbn [Py.contains] in Hb'.
      now rewrite Ascii.eqb_refl in Hb'.
  - change (String x b +:+ String c a) with (String x (b +:+ String c a)) in Heq.
    cbn [Py.contains] in Hb. destruct (Ascii.eqb x c) eqn:Hx; [discriminate|].
    destruct b' as [|y b'].
    + change ("" +:+ String c a') with (String c a') in Heq.
      injection Heq as -> _. now rewrite Ascii.eqb_refl in Hx.
    + change (String y b' +:+ String c a') with (String y (b' +:+ String c a')) in Heq.
      injection Heq as <- Heq. cbn [Py.contains] in Hb'. rewrite Hx in Hb'.
      specialize (IH Hb b' Heq Hb'). now injection IH as -> ->.
Qed.

Lemma rstrip_repeat (c : ascii) (n : nat) : Py.rstrip c (Py.repeat c n) = "".
Proof.
  induction n as [|n IH]; [reflexivity|].
  cbn [Py.repeat Py.rstrip]. rewrite IH. now rewrite Ascii.eqb_refl.
Qed.

Lemma rstrip_append_repeat (c : ascii) (s : string) (n : nat) :
  Py.ends_with c s = false -> Py.rstrip c (s +:+ Py.repeat c n) = s.
Proof.
  induction s as [|a s IH]; intros He.
  - apply rstrip_repeat.
  - change (String a s +:+ Py.repeat c n) with (String a (s +:+ Py.repeat c n)).
    cbn [Py.rstrip]. destruct s as [|b s'].
    + change ("" +:+ Py.repeat c n) with (Py.repeat c n). rewrite rstrip_repeat.
      cbn [Py.ends_with] in He. now rewrite He.
    + rewrite IH by exact He. reflexivity.
Qed.

Lemma append_slash_nonempty (s : string) : s +:+ "/" <> "".
Proof. destruct s; discriminate. Qed.

(** Parsing a bucket name joined to a remainder by ['/']. *)
Lemma parse_bucket_join (b after : string) :
  Py.contains "/"%char b = false ->
  parse_bucket (b +:+ "/" +:+ after)
  = (b, if Py.truthy after then Py.rstrip "/"%char after +:+ "/" else "").
Proof.
  intros Hb. unfold parse_bucket.
  change (b +:+ "/" +:+ after) with (b +:+ String "/" after).
  rewrite contains_append, (split_append _ _ _ Hb).
  destruct b; reflexivity.
Qed.

Lemma parse_bucket_parts (raw : string) :
  Py.contains "/"%char (fst (parse_bucket raw)) = false
  /\ (snd (parse_bucket raw) = ""
      \/ exists stem,
           snd (parse_bucket raw) = stem +:+ "/"
           /\ Py.ends_with "/"%char stem = false).
Proof.
  destruct (Py.contains "/"%char raw) eqn:Hc.
  - destruct (parse_bucket_slash raw Hc) as (b & a & Hraw & Hb & Hp).
    rewrite Hp. cbn [fst snd]. split; [exact Hb|].
    destruct a as [|x a']; cbn [Py.truthy]; [now left|].
    destruct (rstrip_spec "/"%char (String x a')) as (n & Hs & He).
    right. eexists. split; [reflexivity | exact He].
  - rewrite (parse_bucket_no_slash raw Hc). cbn [fst snd].
    split; [exact Hc | now left].
Qed.

(** X3. Whatever the bucket setting is, the bucket name parsed from it
    contains no ['/'], and the prefix is either empty or ends in exactly one
    ['/'].  The prefix is empty exactly when the setting has no ['/'] or
    nothing after its first ['/']. *)
Theorem bucket_and_prefix_shape (raw : string) :
  Py.contains "/"%char (fst (parse_bucket raw)) = false
  /\ (snd (parse_bucket raw) = ""
      \/ exists stem,
           snd (parse_bucket raw) = stem +:+ "/"
           /\ Py.ends_with "/"%char stem = false)
  /\ (snd (parse_bucket raw) = ""
      <-> Py.contains "/"%char raw = false
          \/ exists b, raw = b +:+ "/" /\ Py.contains "/"%char b = false).
Proof.
  destruct (Py.contains "/"%char raw) eqn:Hc.
  - destruct (parse_bucket_slash raw Hc) as (b & a & Hraw & Hb & Hp).
    rewrite Hp. cbn [fst snd]. split; [exact Hb|].
    destruct a as [|x a']; cbn [Py.truthy].
    + split; [now left|]. split; [|reflexivity].
      intros _. right. exists b. split; [exact Hraw | exact Hb].
    + destruct (rstrip_spec "/"%char (String x a')) as (n & Hs & He).
      split; [right; eexists; split; [reflexivity | exact He]|].
      split.
      * intros E. now apply append_slash_nonempty in E.
      * intros [E|(b' & Hraw' & Hb')]; [discriminate E|]. exfalso.
        rewrite Hraw' in Hp. change (b' +:+ "/") with (b' +:+ "/" +:+ "") in Hp.
        rewrite (parse_bucket_join b' "" Hb') in Hp. cbn [Py.truthy] in Hp.
        injection Hp as _ Hp. symmetry in Hp. now apply append_slash_nonempty in Hp.
  - rewrite (parse_bucket_no_slash raw Hc). cbn [fst snd].
    split; [exact Hc|]. split; [now left|]. split; [now left | reflexivity].
Qed.

(** X4. A bucket name without ['/'], joined by ['/'] to a path that does not
    end in ['/'] and followed by any number of ['/'], parses back to that
    bucket name and to the path followed by one ['/'], provided something
    follows the first ['/']. *)
Theorem bucket_prefix_round_trip (b p : string) (n : nat) :
  Py.contains "/"%char b = false ->
  Py.ends_with "/"%char p = false ->
  p <> "" \/ n <> 0%nat ->
  parse_bucket (b +:+ "/" +:+ p +:+ Py.repeat "/"%char n) = (b, p +:+ "/").
Proof.
  intros Hb Hp Hne. rewrite (parse_bucket_join b _ Hb).
  rewrite (rstrip_append_repeat _ _ _ Hp).
  assert (Py.truthy (p +:+ Py.repeat "/"%char n) = true) as ->; [|reflexivity].
  destruct p as [|x p']; [|reflexivity].
  destruct n as [|n']; [|reflexivity]. destruct Hne as [H|H]; now elim H.
Qed.

(** The settings ["mybucket/db/daily"] and ["mybucket/db/daily///"] parse
    alike. *)
Lemma bucket_prefix_round_trip_witness :
  parse_bucket ("mybucket" +:+ "/" +:+ "db/daily" +:+ Py.repeat "/"%char 0)
  = ("mybucket", "db/daily" +:+ "/")
  /\ parse_bucket ("mybucket" +:+ "/" +:+ "db/daily" +:+ Py.repeat "/"%char 3)
     = ("mybucket", "db/daily" +:+ "/").
Proof.
  split; apply bucket_prefix_round_trip;
    first [reflexivity | left; discriminate].
Defined.

(** X5. Joining the parsed bucket name and prefix by ['/'] gives a setting
    that parses to the same bucket name and prefix. *)
Theorem parse_bucket_rejoin (raw : string) :
  parse_bucket (fst (parse_bucket raw) +:+ "/" +:+ snd (parse_bucket raw))
  = parse_bucket raw.
Proof.
  destruct (parse_bucket_parts raw) as (Hb & Hp).
  rewrite (parse_bucket_join _ _ Hb).
  destruct (parse_bucket raw) as [b p]. cbn [fst snd] in *.
  destruct Hp as [->|(stem & -> & He)]; [reflexivity|].
  replace (stem +:+ "/") with (stem +:+ Py.repeat "/"%char 1) by reflexivity.
  rewrite (rstrip_append_repeat _ _ _ He).
  destruct stem; reflexivity.
Qed.

(** ** The catch-all handler *)

(** X6. When starting [pg_dump] raises an exception other than the
    time-out (the program is not installed, say), the catch-all handler logs
    the error with the text of the exception, publishes one [BackupFailure]
    metric and, with a topic configured, one notification whose body
    contains that text; nothing is uploaded and the exit status is 1. *)
Theorem unexpected_dump_error (w : World) (e : exn) :
  missing_vars (os_environ w) = [] ->
  dump_outcome w = inl e ->
  exn_cls e <> TimeoutExpired ->
  let message :=
    "备份失败于 " +:+ strftime "%Y-%m-%d-%H%M%S" (utcnow w 2) +:+ nl +:+ nl
    +:+ "错误: " +:+ exn_str e in
  exit_code w = 1%Z
  /\ In (Log ERROR ("备份失败: " +:+ exn_str e)) (events w)
  /\ calls (events w)
     = Run (pg_dump_command (os_environ w) (run_local_path w))
         (child_env (os_environ w)) 3600
       :: failure_call w
       :: notify_calls w
            ("RDS 备份失败 - " +:+ Py.str (RDS_DB_NAME (os_environ w))) message
  /\ Py.substring_of (exn_str e) message
  /\ count is_upload (events w) = 0%nat
  /\ count is_put_metric (events w) = 1%nat.
Proof.
  intros Hm Hd Hcls message.
  destruct (run_dump_raises w e Hm Hd) as [Hexit Hev].
  pose proof (calls_dump_raises w e Hm Hd) as Hcalls.
  assert (Hs : handler_subject w e
               = "RDS 备份失败 - " +:+ Py.str (RDS_DB_NAME (os_environ w)))
    by (unfold handler_subject; destruct (exn_cls e) eqn:E; congruence).
  assert (Hmsg : handler_message w e = message)
    by (subst message; unfold handler_message; destruct (exn_cls e) eqn:E;
        congruence).
  assert (Herr : handler_error e = "备份失败: " +:+ exn_str e)
    by (unfold handler_error; destruct (exn_cls e) eqn:E; congruence).
  rewrite Hs, Hmsg in Hcalls.
  split; [exact Hexit|].
  split; [rewrite Hev; apply in_or_app; right; left; now rewrite Herr|].
  split; [exact Hcalls|].
  split.
  { do 5 apply substring_skip. apply substring_end. }
  split; count_by_calls Hcalls.
Qed.

(** A run on a machine without [pg_dump]. *)
Lemma unexpected_dump_error_witness :
  exit_code (sample_world sample_environ
               (inl (Exn OtherException "[Errno 2] No such file or directory: 'pg_dump'"))
               None (inr 0%N) None) = 1%Z
  /\ count is_upload
       (events (sample_world sample_environ
                  (inl (Exn OtherException
                          "[Errno 2] No such file or directory: 'pg_dump'"))
                  None (inr 0%N) None)) = 0%nat.
Proof.
  destruct (unexpected_dump_error
              (sample_world sample_environ
                 (inl (Exn OtherException
                         "[Errno 2] No such file or directory: 'pg_dump'"))
                 None (inr 0%N) None)
              (Exn OtherException "[Errno 2] No such file or directory: 'pg_dump'"))
    as (Hexit & _ & _ & _ & Hup & _).
  - vm_compute. reflexivity.
  - reflexivity.
  - discriminate.
  - split; [exact Hexit | exact Hup].
Defined.

(** X7. When the upload has succeeded and reading the size of the artifact
    then raises, the run is reported as failed: one [BackupFailure] metric
    and no [BackupSuccess] is published, the exit status is 1 and the local
    artifact is not removed, although the success of the upload has been
    logged. *)
Theorem size_error_after_upload
    (w : World) (result : CompletedProcess) (e : exn) :
  missing_vars (os_environ w) = [] ->
  dump_outcome w = inr result ->
  returncode result = 0%Z ->
  upload_outcome w = None ->
  size_outcome w = inl e ->
  exit_code w = 1%Z
  /\ In (Log INFO ("成功上传到 S3: s3://" +:+ S3_BUCKET (os_environ w) +:+ "/"
                   +:+ run_s3_key w)) (events w)
  /\ calls (events w)
     = Run (pg_dump_command (os_environ w) (run_local_path w))
         (child_env (os_environ w)) 3600
       :: UploadFile (run_local_path w) (S3_BUCKET (os_environ w)) (run_s3_key w)
       :: GetSize (run_local_path w)
       :: failure_call w
       :: notify_calls w (handler_subject w e) (handler_message w e)
  /\ count (is_metric "BackupSuccess") (events w) = 0%nat
  /\ count (is_metric "BackupFailure") (events w) = 1%nat
  /\ count is_remove (events w) = 0%nat.
Proof.
  intros Hm Hd Hrc Hu Hs.
  destruct (run_size_raises w result e Hm Hd Hrc Hu Hs) as [Hexit Hev].
  pose proof (calls_size_raises w result e Hm Hd Hrc Hu Hs) as Hcalls.
  split; [exact Hexit|].
  split.
  { rewrite Hev. apply in_or_app. right. apply in_or_app. left.
    unfold upload_step_events. apply in_or_app. right.
    unfold upload_events. unfold upload_outcome in Hu. rewrite Hu.
    right. now left. }
  split; [exact Hcalls|].
  repeat split; count_by_calls Hcalls.
Qed.

(** A run whose artifact has vanished when its size is read. *)
Lemma size_error_after_upload_witness :
  exit_code (sample_world sample_environ dump_ok None
               (inl (Exn OtherException "[Errno 2] No such file or directory"))
               None) = 1%Z
  /\ count is_remove
       (events (sample_world sample_environ dump_ok None
                  (inl (Exn OtherException "[Errno 2] No such file or directory"))
                  None)) = 0%nat.
Proof.
  destruct (size_error_after_upload
              (sample_world sample_environ dump_ok None
                 (inl (Exn OtherException "[Errno 2] No such file or directory"))
                 None)
              {| returncode := 0; stdout := ""; stderr := "" |}
              (Exn OtherException "[Errno 2] No such file or directory"))
    as (Hexit & _ & _ & _ & _ & Hrm).
  - vm_compute. reflexivity.
  - reflexivity.
  - reflexivity.
  - reflexivity.
  - reflexivity.
  - split; [exact Hexit | exact Hrm].
Defined.

(** ** Invariants of every run *)

(** Case analysis over the decision tree of a run. *)
Ltac run_tree w :=
  unfold expected_exit_code, expected_calls;
  destruct (bool_decide (missing_vars (os_environ w) = []));
    [destruct (dump_outcome w) as [?|?];
       [|match goal with
         | |- context [(returncode ?r =? 0)%Z] => destruct (returncode r =? 0)%Z
         end;
         [destruct (upload_outcome w) as [?|];
            [|destruct (size_outcome w) as [?|?]]|]]|];
    unfold notify_calls; destruct (Py.truthy (SNS_TOPIC_ARN (os_environ w))).

(** X8. Every run ends with status 0 or 1 and publishes exactly one outcome
    metric: [BackupSuccess] when the status is 0, [BackupFailure] when it is
    1, never both.  [BackupSize] is published exactly with [BackupSuccess],
    and the local artifact is removed exactly in the runs that end with
    status 0. *)
Theorem one_outcome_metric (w : World) :
  (exit_code w = 0%Z \/ exit_code w = 1%Z)
  /\ (count (is_metric "BackupSuccess") (events w)
      + count (is_metric "BackupFailure") (events w) = 1)%nat
  /\ (exit_code w = 0%Z <-> count (is_metric "BackupSuccess") (events w) = 1%nat)
  /\ (exit_code w = 1%Z <-> count (is_metric "BackupFailure") (events w) = 1%nat)
  /\ count (is_metric "BackupSize") (events w)
     = count (is_metric "BackupSuccess") (events w)
  /\ count is_remove (events w) = count (is_metric "BackupSuccess") (events w).
Proof.
  destruct (run_summary w) as [Hexit Hcalls].
  rewrite (count_calls (is_metric "BackupSuccess") (events w)),
    (count_calls (is_metric "BackupFailure") (events w)),
    (count_calls (is_metric "BackupSize") (events w)),
    (count_calls is_remove (events w)) by reflexivity.
  rewrite Hexit, Hcalls. clear Hexit Hcalls.
  run_tree w; cbv [count failure_call metric_call];
    cbn [List.filter is_metric is_remove existsb MetricName datum String.eqb
         Ascii.eqb Bool.eqb orb app List.length Nat.add];
    repeat split; auto; intros; discriminate.
Qed.

Ltac gate_done :=
  repeat match goal with
    | |- _ /\ _ => split
    | |- _ <-> _ => split
    | |- _ -> _ => intro
    | H : _ /\ _ |- _ => destruct H
    | H : exists _, _ |- _ => destruct H
    | H : inl _ = inr _ |- _ => discriminate H
    | H : inr _ = inl _ |- _ => discriminate H
    | H : Some _ = None |- _ => discriminate H
    | H : O = S _ |- _ => discriminate H
    | H : inr _ = inr _ |- _ => injection H as H; subst
    | |- exists _, _ => eexists
    end;
  try reflexivity; try eassumption; try lia; try congruence.

(** X9. In every run each step is taken at most once and only when the step
    before it has succeeded: [pg_dump] is started exactly when nothing is
    missing from the configuration, the upload is attempted exactly when
    [pg_dump] has returned status 0, the size is read exactly when the upload
    has succeeded, and the artifact is removed exactly when its size has
    been read. *)
Theorem steps_are_gated (w : World) :
  (count is_run (events w) <= 1
   /\ count is_upload (events w) <= 1
   /\ count is_getsize (events w) <= 1
   /\ count is_remove (events w) <= 1)%nat
  /\ (count is_run (events w) = 1%nat <-> missing_vars (os_environ w) = [])
  /\ (count is_upload (events w) = 1%nat
      <-> missing_vars (os_environ w) = []
          /\ exists result, dump_outcome w = inr result /\ returncode result = 0%Z)
  /\ (count is_getsize (events w) = 1%nat
      <-> count is_upload (events w) = 1%nat /\ upload_outcome w = None)
  /\ (count is_remove (events w) = 1%nat
      <-> count is_getsize (events w) = 1%nat
          /\ exists file_size, size_outcome w = inr file_size).
Proof.
  destruct (run_summary w) as [_ Hcalls].
  rewrite (count_calls is_run (events w)), (count_calls is_upload (events w)),
    (count_calls is_getsize (events w)), (count_calls is_remove (events w))
    by reflexivity.
  rewrite Hcalls. clear Hcalls.
  unfold expected_calls.
  destruct (decide (missing_vars (os_environ w) = [])) as [Hm|Hm];
    [rewrite (bool_decide_eq_true_2 _ Hm) | rewrite (bool_decide_eq_false_2 _ Hm)];
    [destruct (dump_outcome w) as [e|result];
       [|destruct (Z.eqb_spec (returncode result) 0) as [Hrc|Hrc];
          [destruct (upload_outcome w) as [e|];
             [|destruct (size_outcome w) as [e|file_size]]|]]|];
    unfold notify_calls; destruct (Py.truthy (SNS_TOPIC_ARN (os_environ w)));
    cbv [count failure_call metric_call];
    cbn [List.filter is_run is_upload is_getsize is_remove List.length app];
    gate_done.
Qed.

(** ** What the calls of a run look like *)

Lemma call_in_expected (w : World) (e : event) :
  In e (events w) -> is_log e = false -> In e (expected_calls w).
Proof.
  intros Hin Hlog. destruct (run_summary w) as [_ <-].
  unfold calls. apply filter_In. split; [exact Hin | now rewrite Hlog].
Qed.

(** Case analysis over the decision tree, keeping the equations. *)
Ltac walk_tree w H :=
  unfold expected_calls in H;
  destruct (decide (missing_vars (os_environ w) = [])) as [?Hm|?Hm];
    [rewrite (bool_decide_eq_true_2 _ Hm) in H
    |rewrite (bool_decide_eq_false_2 _ Hm) in H];
    [destruct (dump_outcome w) as [?|?] eqn:?Hd;
       [|match type of H with
         | context [(returncode ?r =? 0)%Z] =>
             destruct (returncode r =? 0)%Z eqn:?Hrc
         end;
         [destruct (upload_outcome w) as [?|] eqn:?Hu;
            [|destruct (size_outcome w) as [?|?] eqn:?Hs]|]]|];
    unfold notify_calls, failure_call, metric_call in H;
    destruct (Py.truthy (SNS_TOPIC_ARN (os_environ w))) eqn:?Htopic;
    cbn [In app] in H.

(** X10. In every run the file that is uploaded, measured and removed is the
    file [pg_dump] was told to write with [-f], [/tmp/<file name>], and the
    object is stored in the configured bucket under a key that ends with
    that file name; [pg_dump] is given 3600 seconds. *)
Theorem one_artifact_per_run (w : World) :
  (forall e, In e (events w) ->
     match e with
     | Run argv env timeout =>
         argv = pg_dump_command (os_environ w) (run_local_path w)
         /\ argv !! 11%nat = Some (Some "-f")
         /\ argv !! 12%nat = Some (Some (run_local_path w))
         /\ env = child_env (os_environ w)
         /\ timeout = 3600%Z
     | UploadFile file_path bucket key =>
         file_path = run_local_path w
         /\ bucket = S3_BUCKET (os_environ w)
         /\ key = run_s3_key w
     | GetSize path => path = run_local_path w
     | Remove path => path = run_local_path w
     | _ => True
     end)
  /\ run_local_path w = "/tmp/" +:+ run_filename w
  /\ exists directory, run_s3_key w = directory +:+ "/" +:+ run_filename w.
Proof.
  split.
  - intros e Hin.
    destruct e as [lvl msg|ns data|t s m|argv env timeout|p b k|p|p];
      try exact I;
      apply call_in_expected in Hin; try reflexivity;
      walk_tree w Hin;
      repeat (destruct Hin as [Hin|Hin]; try discriminate Hin);
      try contradiction;
      try (injection Hin as <- <- <-); try (injection Hin as <-);
      repeat split; reflexivity.
  - split; [reflexivity|].
    unfold run_s3_key, s3_key. destruct (Py.truthy _).
    + exists (S3_PREFIX (os_environ w) +:+ run_date_path w).
      now rewrite append_assoc.
    + exists ("backups/" +:+ run_date_path w). now rewrite append_assoc.
Qed.

(** The upload of the sample run. *)
Lemma one_artifact_per_run_witness :
  "/tmp/backup-app-2024-03-07-090500.dump"
  = run_local_path (sample_world sample_environ dump_ok None (inr 1048576%N) None)
  /\ "mybucket" = S3_BUCKET sample_environ.
Proof.
  destruct (one_artifact_per_run
              (sample_world sample_environ dump_ok None (inr 1048576%N) None))
    as [Hall _].
  destruct (Hall (UploadFile "/tmp/backup-app-2024-03-07-090500.dump" "mybucket"
                    "backups/2024/03/07/backup-app-2024-03-07-090500.dump"))
    as (Hpath & Hbucket & _).
  - vm_compute. tauto.
  - split; [exact Hpath | exact Hbucket].
Defined.

(** X11. Every metric a run publishes goes to the configured namespace as a
    single datum with the dimensions [Database] (the database name) and
    [Status], and is one of: [BackupFailure] with value 1, unit [Count] and
    status [Failed]; [BackupSuccess] with value 1, unit [Count] and status
    [Success]; [BackupSize] with the size in megabytes of the artifact, unit
    [Megabytes] and status [Success]. *)
Theorem metrics_are_well_formed (w : World) ns data :
  In (PutMetricData ns data) (events w) ->
  ns = CLOUDWATCH_NAMESPACE (os_environ w)
  /\ exists name value unit_ status,
       data = [ {| MetricName := name; Value := value; Unit := unit_;
                   Dimensions :=
                     [ {| dim_Name := "Database";
                          dim_Value := RDS_DB_NAME (os_environ w) |};
                       {| dim_Name := "Status"; dim_Value := Some status |} ] |} ]
       /\ ((name = "BackupFailure" /\ value = Int 1 /\ unit_ = "Count"
            /\ status = "Failed")
           \/ (name = "BackupSuccess" /\ value = Int 1 /\ unit_ = "Count"
               /\ status = "Success")
           \/ (name = "BackupSize" /\ unit_ = "Megabytes" /\ status = "Success"
               /\ exists file_size,
                    size_outcome w = inr file_size
                    /\ value = Float (file_size_mb file_size))).
Proof.
  intros Hin. apply call_in_expected in Hin; [|reflexivity].
  walk_tree w Hin;
    repeat (destruct Hin as [Hin|Hin]; try discriminate Hin);
    try contradiction;
    injection Hin as <- <-; (split; [reflexivity|]);
    do 4 eexists; (split; [reflexivity|]);
    first [ left; repeat split; reflexivity
          | right; left; repeat split; reflexivity
          | right; right; repeat split; try reflexivity;
            eexists; split; reflexivity ].
Qed.

(** Both metrics of the sample successful run. *)
Lemma metrics_are_well_formed_witness :
  "RDS/Backup" = CLOUDWATCH_NAMESPACE sample_environ.
Proof.
  destruct (metrics_are_well_formed
              (sample_world sample_environ dump_ok None (inr 1048576%N) None)
              "RDS/Backup"
              [datum (sample_world sample_environ dump_ok None (inr 1048576%N) None)
                 "BackupSize" (Float 1) "Megabytes" "Success"])
    as [Hns _].
  - vm_compute. tauto.
  - exact Hns.
Defined.

(** X12. Every notification a run publishes goes to the configured topic,
    which is not empty, in a run whose configuration is complete, and its
    subject is one of the four outcomes followed by [" - "] and the database
    name. *)
Theorem notifications_are_well_formed (w : World) topic subject message :
  In (Publish topic subject message) (events w) ->
  topic = SNS_TOPIC_ARN (os_environ w)
  /\ topic <> ""
  /\ missing_vars (os_environ w) = []
  /\ exists outcome,
       In outcome ["RDS 备份成功"; "RDS 备份失败"; "RDS 备份上传失败"; "RDS 备份超时"]
       /\ subject = outcome +:+ " - " +:+ Py.str (RDS_DB_NAME (os_environ w)).
Proof.
  intros Hin. apply call_in_expected in Hin; [|reflexivity].
  walk_tree w Hin;
    repeat (destruct Hin as [Hin|Hin]; try discriminate Hin);
    try contradiction;
    injection Hin as <- <- <-;
    (split; [reflexivity|]);
    (split; [now apply truthy_true|]);
    (split; [assumption|]);
    unfold handler_subject, dump_failed_subject, upload_failed_subject,
      success_subject;
    try destruct (exn_cls _);
    first [ exists "RDS 备份成功"; split; [cbn; tauto | reflexivity]
          | exists "RDS 备份失败"; split; [cbn; tauto | reflexivity]
          | exists "RDS 备份上传失败"; split; [cbn; tauto | reflexivity]
          | exists "RDS 备份超时"; split; [cbn; tauto | reflexivity] ].
Qed.

(** The notification of the sample successful run. *)
Lemma notifications_are_well_formed_witness :
  "arn:aws:sns:ap-northeast-1:1:backups" = SNS_TOPIC_ARN sample_environ.
Proof.
  destruct (notifications_are_well_formed
              (sample_world sample_environ dump_ok None (inr 1048576%N) None)
              "arn:aws:sns:ap-northeast-1:1:backups"
              "RDS 备份成功 - app"
              (success_message sample_environ "2024-03-07-090500"
                 "backups/2024/03/07/backup-app-2024-03-07-090500.dump" 1))
    as [Htopic _].
  - vm_compute. tauto.
  - exact Htopic.
Defined.

(** ** What the password can influence *)

Section Confinement.

Variables w w' : World.

Hypothesis Hsame :
  forall k, In k visible_settings -> os_environ w' !! k = os_environ w !! k.

Hypothesis Hclock : forall n, utcnow w' n = utcnow w n.
Hypothesis Hput :
  forall ns data,
    cloudwatch_put_metric_data w' ns data = cloudwatch_put_metric_data w ns data.
Hypothesis Hpublish :
  forall topic subject message,
    sns_publish w' topic subject message = sns_publish w topic subject message.
Hypothesis Hupload :
  forall file_path bucket key,
    s3_upload_file w' file_path bucket key = s3_upload_file w file_path bucket key.
Hypothesis Hgetsize : forall path, os_path_getsize w' path = os_path_getsize w path.
Hypothesis Hremove : forall path, os_remove w' path = os_remove w path.

Lemma same_host : RDS_HOST (os_environ w') = RDS_HOST (os_environ w).
Proof. apply Hsame. cbn. tauto. Qed.

Lemma same_port : RDS_PORT (os_environ w') = RDS_PORT (os_environ w).
Proof. unfold RDS_PORT. rewrite Hsame; [reflexivity | cbn; tauto]. Qed.

Lemma same_db : RDS_DB_NAME (os_environ w') = RDS_DB_NAME (os_environ w).
Proof. apply Hsame. cbn. tauto. Qed.

Lemma same_user : RDS_USERNAME (os_environ w') = RDS_USERNAME (os_environ w).
Proof. apply Hsame. cbn. tauto. Qed.

Lemma same_bucket : S3_BUCKET (os_environ w') = S3_BUCKET (os_environ w).
Proof.
  unfold S3_BUCKET, S3_BUCKET_RAW. rewrite Hsame; [reflexivity | cbn; tauto].
Qed.

Lemma same_prefix : S3_PREFIX (os_environ w') = S3_PREFIX (os_environ w).
Proof.
  unfold S3_PREFIX, S3_BUCKET_RAW. rewrite Hsame; [reflexivity | cbn; tauto].
Qed.

Lemma same_topic : SNS_TOPIC_ARN (os_environ w') = SNS_TOPIC_ARN (os_environ w).
Proof. unfold SNS_TOPIC_ARN. rewrite Hsame; [reflexivity | cbn; tauto]. Qed.

Lemma same_namespace :
  CLOUDWATCH_NAMESPACE (os_environ w') = CLOUDWATCH_NAMESPACE (os_environ w).
Proof.
  unfold CLOUDWATCH_NAMESPACE. rewrite Hsame; [reflexivity | cbn; tauto].
Qed.

Lemma same_region : AWS_REGION (os_environ w') = AWS_REGION (os_environ w).
Proof. unfold AWS_REGION. rewrite !Hsame; [reflexivity | cbn; tauto | cbn; tauto]. Qed.

Ltac same_settings :=
  rewrite ?Hclock, ?Hput, ?Hpublish, ?Hupload, ?Hgetsize, ?Hremove,
    ?same_host, ?same_port, ?same_db, ?same_user, ?same_bucket,
    ?same_prefix, ?same_topic, ?same_namespace.

Lemma same_local_path : run_local_path w' = run_local_path w.
Proof.
  unfold run_local_path, run_filename, run_timestamp. same_settings. reflexivity.
Qed.

Lemma same_s3_key : run_s3_key w' = run_s3_key w.
Proof.
  unfold run_s3_key, run_date_path, run_filename, run_timestamp. same_settings.
  reflexivity.
Qed.

Lemma same_command :
  pg_dump_command (os_environ w') (run_local_path w')
  = pg_dump_command (os_environ w) (run_local_path w).
Proof.
  rewrite same_local_path. unfold pg_dump_command. same_settings. reflexivity.
Qed.

Lemma same_upload_outcome : upload_outcome w' = upload_outcome w.
Proof.
  unfold upload_outcome. rewrite same_local_path, same_s3_key. same_settings.
  reflexivity.
Qed.

Lemma same_size_outcome : size_outcome w' = size_outcome w.
Proof. unfold size_outcome. rewrite same_local_path. apply Hgetsize. Qed.

Lemma same_metric_events n v u s : metric_events w' n v u s = metric_events w n v u s.
Proof. unfold metric_events, datum. same_settings. reflexivity. Qed.

Lemma same_notify_events subject message :
  notify_events w' subject message = notify_events w subject message.
Proof. unfold notify_events. same_settings. reflexivity. Qed.

Lemma same_start_events :
  map hide_child_env (start_events w') = map hide_child_env (start_events w).
Proof.
  unfold start_events. cbn [map hide_child_env].
  rewrite same_command, same_s3_key. same_settings. reflexivity.
Qed.

Lemma same_handler_events e : handler_events w' e = handler_events w e.
Proof.
  unfold handler_events, failure_metric_events, handler_subject, handler_message.
  rewrite same_metric_events, same_notify_events. same_settings. reflexivity.
Qed.

Lemma same_dump_failed_events result :
  dump_failed_events w' result = dump_failed_events w result.
Proof.
  unfold dump_failed_events, failure_metric_events, dump_failed_subject,
    dump_failed_message, run_timestamp.
  rewrite same_metric_events, same_notify_events. same_settings. reflexivity.
Qed.

Lemma same_upload_step_events : upload_step_events w' = upload_step_events w.
Proof.
  unfold upload_step_events, upload_events.
  rewrite same_local_path, same_s3_key. same_settings. reflexivity.
Qed.

Lemma same_upload_failed_events : upload_failed_events w' = upload_failed_events w.
Proof.
  unfold upload_failed_events, failure_metric_events, upload_failed_subject,
    upload_failed_message, run_timestamp.
  rewrite same_metric_events, same_notify_events, same_s3_key. same_settings.
  reflexivity.
Qed.

Lemma same_success_events file_size :
  success_events w' file_size = success_events w file_size.
Proof.
  unfold success_events, cleanup_events, remove_outcome, success_subject,
    success_message, run_timestamp.
  rewrite !same_metric_events, same_notify_events, same_s3_key, same_local_path.
  same_settings. reflexivity.
Qed.

Lemma same_validity :
  missing_vars (os_environ w) = [] ->
  Py.truthy_opt (RDS_PASSWORD (os_environ w')) = true ->
  missing_vars (os_environ w') = [].
Proof.
  intros Hm Hp. apply missing_vars_nil_iff in Hm as (Hh & Hd & Hu & _ & Hb).
  apply missing_vars_nil_iff.
  rewrite same_host, same_db, same_user, same_bucket. tauto.
Qed.

End Confinement.



(** ** The child process *)

(** X14. With nothing missing from the configuration, the one child process
    of a run is [pg_dump -h <host> -p <port> -U <user> -d <db> -F c -f
    /tmp/<file name> --no-owner --no-acl --verbose], the port being [5432]
    when [RDS_PORT] is not set, with a bound of 3600 seconds; every argument
    is a string, and the environment of the child is the environment of the
    script with [PGPASSWORD] set to the password, an inherited [PGPASSWORD]
    being replaced. *)
Theorem dump_tool_invocation (w : World) :
  missing_vars (os_environ w) = [] ->
  exists host db user password,
    os_environ w !! "RDS_HOST" = Some host
    /\ os_environ w !! "RDS_DB_NAME" = Some db
    /\ os_environ w !! "RDS_USERNAME" = Some user
    /\ os_environ w !! "RDS_PASSWORD" = Some password
    /\ List.filter is_run (events w)
       = [ Run (map Some
                  [ "pg_dump"; "-h"; host;
                    "-p"; default "5432" (os_environ w !! "RDS_PORT");
                    "-U"; user; "-d"; db; "-F"; "c";
                    "-f"; "/tmp/" +:+ run_filename w;
                    "--no-owner"; "--no-acl"; "--verbose" ])
             (Some <$> <["PGPASSWORD" := password]> (os_environ w))
             3600 ]
    /\ (forall k, k <> "PGPASSWORD" ->
                  (<["PGPASSWORD" := password]> (os_environ w)) !! k
                  = os_environ w !! k).
Proof.
  intros Hm.
  destruct (valid_config_values _ Hm)
    as (host & db & user & pw & (Hh & _) & (Hd & _) & (Hu & _) & (Hp & _) & _).
  exists host, db, user, pw. repeat split; try assumption.
  - rewrite (dump_tool_call w Hm).
    unfold pg_dump_command, child_env, run_local_path, local_file_path, RDS_PORT.
    rewrite Hh, Hd, Hu, Hp, fmap_insert. reflexivity.
  - intros k Hk. now rewrite lookup_insert_ne.
Qed.

(** The child process of the sample run. *)
Lemma dump_tool_invocation_witness :
  exists host db user password,
    sample_environ !! "RDS_HOST" = Some host
    /\ sample_environ !! "RDS_DB_NAME" = Some db
    /\ sample_environ !! "RDS_USERNAME" = Some user
    /\ sample_environ !! "RDS_PASSWORD" = Some password.
Proof.
  destruct (dump_tool_invocation
              (sample_world sample_environ dump_ok None (inr 1048576%N) None))
    as (host & db & user & pw & Hh & Hd & Hu & Hp & _).
  - vm_compute. reflexivity.
  - exists host, db, user, pw. repeat split; assumption.
Defined.

(** ** File name and key *)

(** X15. The local file is [/tmp/backup-<db>-<stamp>.dump] and the key is
    [<prefix><YYYY>/<MM>/<DD>/backup-<db>-<stamp>.dump], where the prefix is
    [backups/] when the bucket setting gives none, the stamp
    [YYYY-MM-DD-HHMMSS] is taken from the first reading of the clock and the
    date path from the second. *)
Theorem key_and_path_format (w : World) (db : string) :
  RDS_DB_NAME (os_environ w) = Some db ->
  let two := fun n => zfill 2 (pretty n) in
  let reading1 := utcnow w 0 in
  let reading2 := utcnow w 1 in
  let stamp :=
    zfill 4 (pretty (year reading1)) +:+ "-" +:+ two (month reading1) +:+ "-"
    +:+ two (day reading1) +:+ "-" +:+ two (hour reading1) +:+ two (minute reading1)
    +:+ two (second reading1) in
  run_local_path w = "/tmp/backup-" +:+ db +:+ "-" +:+ stamp +:+ ".dump"
  /\ run_s3_key w
     = (if Py.truthy (S3_PREFIX (os_environ w))
        then S3_PREFIX (os_environ w) else "backups/")
       +:+ zfill 4 (pretty (year reading2)) +:+ "/" +:+ two (month reading2) +:+ "/"
       +:+ two (day reading2)
       +:+ "/backup-" +:+ db +:+ "-" +:+ stamp +:+ ".dump".
Proof.
  intros Hdb two reading1 reading2 stamp.
  unfold run_local_path, run_s3_key, run_filename, run_date_path, run_timestamp,
    local_file_path, s3_key, backup_filename.
  rewrite Hdb, strftime_date_path, strftime_timestamp. cbn [Py.str].
  fold reading1 reading2. fold (two (month reading1)) (two (day reading1)) (two (hour reading1))
    (two (minute reading1)) (two (second reading1)) (two (month reading2))
    (two (day reading2)).
  fold stamp.
  split; [reflexivity|].
  destruct (Py.truthy _); rewrite !append_assoc; reflexivity.
Qed.

(** The file and the key of the sample run. *)
Lemma key_and_path_format_witness :
  run_local_path (sample_world sample_environ dump_ok None (inr 1048576%N) None)
  = "/tmp/backup-app-2024-03-07-090500.dump"
  /\ run_s3_key (sample_world sample_environ dump_ok None (inr 1048576%N) None)
     = "backups/2024/03/07/backup-app-2024-03-07-090500.dump".
Proof.
  destruct (key_and_path_format
              (sample_world sample_environ dump_ok None (inr 1048576%N) None) "app")
    as [Hpath Hkey].
  - vm_compute. reflexivity.
  - split; [rewrite Hpath | rewrite Hkey]; vm_compute; reflexivity.
Defined.

(** ** What the helpers log *)

(** X16. A call of [send_cloudwatch_metric] adds to the trace the
    [put_metric_data] call and, exactly when that call raises, one warning:
    a fixed text for missing credentials, the text of the exception
    otherwise.  A call of [send_sns_notification] with a topic adds the
    [publish] call and exactly one record: an information naming the subject
    when the call succeeds, a warning with a fixed text for missing
    credentials, an error with the text of the exception otherwise.  Neither
    reads the clock. *)
Theorem observability_failures_are_logged (w : World) (st : state) :
  (forall name value unit_ status,
      let out := snd (send_cloudwatch_metric w name value unit_ status st) in
      clock_reads out = clock_reads st
      /\ trace out
         = trace st
           ++ metric_call w name value unit_ status
              :: match cloudwatch_put_metric_data w
                         (CLOUDWATCH_NAMESPACE (os_environ w))
                         [datum w name value unit_ status] with
                 | None => []
                 | Some e =>
                     [Log WARNING
                        match exn_cls e with
                        | NoCredentialsError =>
                            "发送 CloudWatch 指标失败: 未找到 AWS 凭证（在 ECS 中应使用 IAM 角色，本地运行需要配置 AWS 凭证）"
                        | _ => "发送 CloudWatch 指标失败: " +:+ exn_str e
                        end]
                 end)
  /\ (forall subject message,
         SNS_TOPIC_ARN (os_environ w) <> "" ->
         let out := snd (send_sns_notification w subject message st) in
         clock_reads out = clock_reads st
         /\ trace out
            = trace st
              ++ [Publish (SNS_TOPIC_ARN (os_environ w)) subject message;
                  match sns_publish w (SNS_TOPIC_ARN (os_environ w)) subject message
                  with
                  | None => Log INFO ("SNS 通知已发送: " +:+ subject)
                  | Some e =>
                      match exn_cls e with
                      | NoCredentialsError =>
                          Log WARNING
                            "发送 SNS 通知失败: 未找到 AWS 凭证（在 ECS 中应使用 IAM 角色，本地运行需要配置 AWS 凭证）"
                      | _ => Log ERROR ("发送 SNS 通知失败: " +:+ exn_str e)
                      end
                  end]).
Proof.
  split.
  - intros name value unit_ status out. subst out.
    rewrite send_cloudwatch_metric_run. cbn [snd extend clock_reads trace].
    split; [reflexivity|]. unfold metric_events, metric_call.
    destruct (cloudwatch_put_metric_data w _ _) as [e|]; [|reflexivity].
    destruct (exn_cls e); reflexivity.
  - intros subject message Htopic out. subst out.
    rewrite send_sns_notification_run. cbn [snd extend clock_reads trace].
    split; [reflexivity|]. unfold notify_events.
    apply truthy_true in Htopic. rewrite Htopic.
    destruct (sns_publish w _ _ _) as [e|]; [|reflexivity].
    destruct (exn_cls e); reflexivity.
Qed.

(** A notification that is refused for want of credentials. *)
Lemma observability_failures_are_logged_witness :
  clock_reads
    (snd (send_sns_notification
            (with_observability
               (sample_world sample_environ dump_ok None (inr 1048576%N) None)
               (fun _ _ => None)
               (fun _ _ _ => Some (Exn NoCredentialsError "Unable to locate credentials")))
            "RDS 备份成功 - app" "RDS 备份成功完成" init))
  = clock_reads init.
Proof.
  destruct (observability_failures_are_logged
              (with_observability
                 (sample_world sample_environ dump_ok None (inr 1048576%N) None)
                 (fun _ _ => None)
                 (fun _ _ _ =>
                    Some (Exn NoCredentialsError "Unable to locate credentials")))
              init)
    as [_ Hsns].
  destruct (Hsns "RDS 备份成功 - app" "RDS 备份成功完成") as [Hclock _].
  - vm_compute. discriminate.
  - exact Hclock.
Defined.

(** X17. [upload_to_s3] never raises: it returns [True] exactly when
    [upload_file] raises nothing, and adds to the trace the [upload_file]
    call and exactly one record, an information naming [s3://bucket/key] on
    success and an error on failure. *)
Theorem upload_to_s3_reports (w : World) file_path bucket key (st : state) :
  let out := upload_to_s3 w file_path bucket key st in
  clock_reads (snd out) = clock_reads st
  /\ match s3_upload_file w file_path bucket key with
     | None =>
         fst out = Normal true
         /\ trace (snd out)
            = trace st
              ++ [UploadFile file_path bucket key;
                  Log INFO ("成功上传到 S3: s3://" +:+ bucket +:+ "/" +:+ key)]
     | Some e =>
         fst out = Normal false
         /\ exists msg,
              trace (snd out)
              = trace st ++ [UploadFile file_path bucket key; Log ERROR msg]
              /\ (exn_cls e <> NoCredentialsError ->
                  msg = "上传到 S3 失败: " +:+ exn_str e)
     end.
Proof.
  intros out. subst out. rewrite upload_to_s3_run.
  cbn [fst snd extend clock_reads trace]. split; [reflexivity|].
  unfold upload_events.
  destruct (s3_upload_file w file_path bucket key) as [e|].
  - split; [reflexivity|].
    destruct (exn_cls e); eexists; (split; [reflexivity|]);
      intros H; first [reflexivity | now elim H].
  - split; reflexivity.
Qed.

(** An upload that is denied. *)
Lemma upload_to_s3_reports_witness :
  fst (upload_to_s3
         (sample_world sample_environ dump_ok (Some access_denied) (inr 0%N) None)
         "/tmp/backup-app-2024-03-07-090500.dump" "mybucket"
         "backups/2024/03/07/backup-app-2024-03-07-090500.dump" init)
  = Normal false
  /\ exists msg,
       trace (snd (upload_to_s3
                     (sample_world sample_environ dump_ok (Some access_denied)
                        (inr 0%N) None)
                     "/tmp/backup-app-2024-03-07-090500.dump" "mybucket"
                     "backups/2024/03/07/backup-app-2024-03-07-090500.dump" init))
       = [UploadFile "/tmp/backup-app-2024-03-07-090500.dump" "mybucket"
            "backups/2024/03/07/backup-app-2024-03-07-090500.dump";
          Log ERROR msg]
       /\ msg = "上传到 S3 失败: " +:+ exn_str access_denied.
Proof.
  destruct (upload_to_s3_reports
              (sample_world sample_environ dump_ok (Some access_denied) (inr 0%N) None)
              "/tmp/backup-app-2024-03-07-090500.dump" "mybucket"
              "backups/2024/03/07/backup-app-2024-03-07-090500.dump" init)
    as (_ & Hflag & msg & Htrace & Hmsg).
  split; [exact Hflag|]. exists msg. split; [exact Htrace|].
  apply Hmsg. discriminate.
Defined.

(** ** Errors in the log *)

Lemma success_inversion (w : World) :
  exit_code w = 0%Z ->
  missing_vars (os_environ w) = []
  /\ exists result file_size,
       dump_outcome w = inr result
       /\ returncode result = 0%Z
       /\ upload_outcome w = None
       /\ size_outcome w = inr file_size.
Proof.
  destruct (run_summary w) as [-> _]. unfold expected_exit_code.
  destruct (decide (missing_vars (os_environ w) = [])) as [Hm|Hm];
    [rewrite (bool_decide_eq_true_2 _ Hm) | rewrite (bool_decide_eq_false_2 _ Hm)];
    [|discriminate].
  destruct (dump_outcome w) as [e|result]; [discriminate|].
  destruct (Z.eqb_spec (returncode result) 0) as [Hrc|Hrc]; [|discriminate].
  destruct (upload_outcome w) as [e|]; [discriminate|].
  destruct (size_outcome w) as [e|file_size]; [discriminate|].
  intros _. split; [exact Hm|]. now exists result, file_size.
Qed.

Lemma errors_of_metric_events w n v u s :
  List.filter is_error_log (metric_events w n v u s) = [].
Proof.
  unfold metric_events.
  destruct (cloudwatch_put_metric_data w _ _) as [e|]; [destruct (exn_cls e)|];
    reflexivity.
Qed.

Lemma errors_of_cleanup_events w : List.filter is_error_log (cleanup_events w) = [].
Proof. unfold cleanup_events. destruct (remove_outcome w); reflexivity. Qed.

Lemma errors_of_notify_events w subject message msg :
  In (Log ERROR msg) (notify_events w subject message) ->
  exists e,
    sns_publish w (SNS_TOPIC_ARN (os_environ w)) subject message = Some e
    /\ msg = "发送 SNS 通知失败: " +:+ exn_str e.
Proof.
  unfold notify_events. destruct (Py.truthy _); [|intros []].
  destruct (sns_publish w _ _ _) as [e|].
  - intros [H|H]; [discriminate H|]. exists e. split; [reflexivity|].
    destruct (exn_cls e); destruct H as [H|[]]; try discriminate H;
      now injection H as <-.
  - intros [H|[H|[]]]; discriminate H.
Qed.

(** X18. A run that ends with status 1 has logged at least one error.  A
    run that ends with status 0 logs no error, except the one of a
    notification that could not be published. *)
Theorem failures_are_logged (w : World) :
  (exit_code w = 1%Z -> exists msg, In (Log ERROR msg) (events w))
  /\ (exit_code w = 0%Z ->
      forall msg, In (Log ERROR msg) (events w) ->
        exists subject message e,
          sns_publish w (SNS_TOPIC_ARN (os_environ w)) subject message = Some e
          /\ msg = "发送 SNS 通知失败: " +:+ exn_str e).
Proof.
  split.
  - intros Hexit.
    destruct (decide (missing_vars (os_environ w) = [])) as [Hm|Hm].
    2:{ destruct (run_config_invalid w Hm) as [_ ->]. eexists. now left. }
    destruct (dump_outcome w) as [e|result] eqn:Hd.
    { destruct (run_dump_raises w e Hm Hd) as [_ ->].
      eexists. apply in_or_app. right. now left. }
    destruct (Z.eqb_spec (returncode result) 0) as [Hrc|Hrc].
    2:{ destruct (run_dump_failed w result Hm Hd Hrc) as [_ ->].
        eexists. apply in_or_app. right. now left. }
    destruct (upload_outcome w) as [e|] eqn:Hu.
    { exists ("上传到 S3 失败: "
              +:+ match exn_cls e with
                  | NoCredentialsError =>
                      "未找到 AWS 凭证（在 ECS 中应使用 IAM 角色，本地运行需要配置 AWS 凭证）"
                  | _ => exn_str e
                  end).
      destruct (run_upload_failed w result e Hm Hd Hrc Hu) as [_ ->].
      apply in_or_app. right. apply in_or_app. left.
      unfold upload_step_events. apply in_or_app. right.
      unfold upload_events. unfold upload_outcome in Hu. rewrite Hu.
      right. destruct (exn_cls e); now left. }
    destruct (size_outcome w) as [e|file_size] eqn:Hs.
    { destruct (run_size_raises w result e Hm Hd Hrc Hu Hs) as [_ ->].
      eexists. do 3 (apply in_or_app; right). now left. }
    destruct (run_success w result file_size Hm Hd Hrc Hu Hs) as [E _].
    rewrite E in Hexit. discriminate Hexit.
  - intros Hexit msg Hin.
    destruct (success_inversion w Hexit) as (Hm & result & file_size & Hd & Hrc & Hu & Hs).
    destruct (run_success w result file_size Hm Hd Hrc Hu Hs) as [_ Hev].
    rewrite Hev in Hin. unfold success_events, upload_step_events in Hin.
    repeat (apply in_app_or in Hin; destruct Hin as [Hin|Hin]).
    + repeat (destruct Hin as [Hin|Hin]; try discriminate Hin). destruct Hin.
    + repeat (destruct Hin as [Hin|Hin]; try discriminate Hin). destruct Hin.
    + unfold upload_events in Hin. unfold upload_outcome in Hu. rewrite Hu in Hin.
      repeat (destruct Hin as [Hin|Hin]; try discriminate Hin). destruct Hin.
    + repeat (destruct Hin as [Hin|Hin]; try discriminate Hin). destruct Hin.
    + assert (In (Log ERROR msg) (List.filter is_error_log (metric_events w
                "BackupSuccess" (Int 1) "Count" "Success")))
        by (apply filter_In; now split).
      now rewrite errors_of_metric_events in H.
    + assert (In (Log ERROR msg) (List.filter is_error_log (metric_events w
                "BackupSize" (Float (file_size_mb file_size)) "Megabytes" "Success")))
        by (apply filter_In; now split).
      now rewrite errors_of_metric_events in H.
    + repeat (destruct Hin as [Hin|Hin]; try discriminate Hin). destruct Hin.
    + apply errors_of_notify_events in Hin as (e & He & Hmsg).
      now exists (success_subject w),
        (success_message (os_environ w) (run_timestamp w) (run_s3_key w)
           (file_size_mb file_size)), e.
    + assert (In (Log ERROR msg) (List.filter is_error_log (cleanup_events w)))
        by (apply filter_In; now split).
      now rewrite errors_of_cleanup_events in H.
    + repeat (destruct Hin as [Hin|Hin]; try discriminate Hin). destruct Hin.
Qed.

(** The sample run whose upload is denied logs the denial. *)
Lemma failures_are_logged_witness :
  exists msg,
    In (Log ERROR msg)
       (events (sample_world sample_environ dump_ok (Some access_denied)
                  (inr 1048576%N) None)).
Proof.
  destruct (failures_are_logged
              (sample_world sample_environ dump_ok (Some access_denied)
                 (inr 1048576%N) None)) as [Hfail _].
  apply Hfail. vm_compute. reflexivity.
Defined.

(** ** The order of the calls *)

Lemma notify_calls_publish w subject message :
  Forall (fun e => is_publish e = true) (notify_calls w subject message).
Proof. unfold notify_calls. destruct (Py.truthy _); repeat constructor. Qed.

(** X19. The calls of every run come in one order: the dump, then the
    upload, then the reading of the size, then the metrics, then the
    notification, then the removal of the artifact; a run may stop short of
    a step but never takes one out of turn, and always publishes a metric. *)
Theorem calls_are_ordered (w : World) :
  exists dump upload size metrics notification cleanup,
    calls (events w) = dump ++ upload ++ size ++ metrics ++ notification ++ cleanup
    /\ Forall (fun e => is_run e = true) dump
    /\ Forall (fun e => is_upload e = true) upload
    /\ Forall (fun e => is_getsize e = true) size
    /\ Forall (fun e => is_put_metric e = true) metrics
    /\ Forall (fun e => is_publish e = true) notification
    /\ Forall (fun e => is_remove e = true) cleanup
    /\ metrics <> [].
Proof.
  destruct (run_summary w) as [_ ->]. unfold expected_calls.
  destruct (bool_decide (missing_vars (os_environ w) = [])).
  2:{ exists [], [], [], [failure_call w], [], [].
      repeat split; try reflexivity; repeat constructor. discriminate. }
  destruct (dump_outcome w) as [e|result].
  { eexists [_], [], [], [failure_call w], _, [].
    split; [cbn [app]; rewrite ?app_nil_r; reflexivity|].
    repeat split; try apply notify_calls_publish; repeat constructor.
    discriminate. }
  destruct (returncode result =? 0)%Z.
  2:{ eexists [_], [], [], [failure_call w], _, [].
      split; [cbn [app]; rewrite ?app_nil_r; reflexivity|].
      repeat split; try apply notify_calls_publish; repeat constructor.
      discriminate. }
  destruct (upload_outcome w) as [e|].
  { eexists [_], [_], [], [failure_call w], _, [].
    split; [cbn [app]; rewrite ?app_nil_r; reflexivity|].
    repeat split; try apply notify_calls_publish; repeat constructor.
    discriminate. }
  destruct (size_outcome w) as [e|file_size].
  { eexists [_], [_], [_], [failure_call w], _, [].
    split; [cbn [app]; rewrite ?app_nil_r; reflexivity|].
    repeat split; try apply notify_calls_publish; repeat constructor.
    discriminate. }
  eexists [_], [_], [_], [_; _], _, [_].
  split; [reflexivity|].
  repeat split; try apply notify_calls_publish; repeat constructor.
  discriminate.
Qed.

(** ** Repairing the configuration *)

(** X20. Giving one required setting a proper value removes exactly that
    key from the list of missing keys and leaves the rest of the list as it
    was; a proper value is a non-empty one that, for [S3_BUCKET], does not
    start with ['/']. *)
Theorem setting_a_value_clears_its_key (env : gmap string string) (k v : string) :
  In k required_keys ->
  v <> "" ->
  (k = "S3_BUCKET" -> forall rest, v <> String "/" rest) ->
  missing_vars (<[k := v]> env)
  = List.filter (fun k' => negb (String.eqb k' k)) (missing_vars env).
Proof.
  intros Hk Hv Hslash. apply truthy_true in Hv. unfold required_keys in Hk.
  assert (Hb : k = "S3_BUCKET" -> Py.truthy (fst (parse_bucket v)) = true).
  { intros E. apply truthy_true. intros Hempty. apply bucket_empty_iff in Hempty.
    destruct Hempty as [->|[rest ->]]; [discriminate Hv|].
    now apply (Hslash E rest). }
  unfold missing_vars, required_vars, S3_BUCKET, S3_BUCKET_RAW,
    RDS_HOST, RDS_DB_NAME, RDS_USERNAME, RDS_PASSWORD.
  destruct Hk as [<-|[<-|[<-|[<-|[<-|[]]]]]];
    rewrite lookup_insert_eq, !lookup_insert_ne by discriminate;
    cbn [List.filter negb Py.truthy_opt snd default id];
    rewrite ?Hv, ?(Hb eq_refl); cbn [negb];
    repeat match goal with
      | |- context [if negb ?b then _ else _] => destruct b; cbn [negb]
      end;
    reflexivity.
Qed.

(** Setting the missing password of a run clears the list. *)
Lemma setting_a_value_clears_its_key_witness :
  missing_vars (<["RDS_PASSWORD" := "s3cret"]> (delete "RDS_PASSWORD" sample_environ))
  = [].
Proof.
  rewrite (setting_a_value_clears_its_key
             (delete "RDS_PASSWORD" sample_environ) "RDS_PASSWORD" "s3cret").
  - vm_compute. reflexivity.
  - vm_compute. tauto.
  - discriminate.
  - discriminate.
Defined.
